(** * contextro: the ignore-pattern matcher and the tree concatenator

    A shallow embedding of [src/contextro.py] (class [Contextro], the richer
    variant) and [src/context_builder.py] (class [ContextBuilder], the simpler
    variant), and the properties of the ignore-pattern matcher, the binary
    classifier and the directory walk.

    Modelling conventions.
    - A Python [str] is a [string]: the UTF-8 octets of its text, where an
      octet that is not part of well-formed UTF-8 stands for the escape of an
      undecodable byte of a file name. A path (a [pathlib.Path] or a string
      built by [os.path.join]) is the list of its components, [str_path]
      renders it with forward separators.
    - The directory tree is the one [os.walk] lists: per directory, the plain
      files (name and bytes, [None] when the file cannot be opened) and the
      sub-directories. There are no symbolic links, so [Path.resolve] is the
      identity on the paths of the walk.
    - [fnmatch.fnmatch], the decoding done by a text-mode [read], the
      encoding done by a text-mode [write] and the creation of the artifact
      belong to the Python runtime and the system: the development is
      parametric in them (class [Runtime]). What a property needs of the glob
      matcher beyond its being a function is asked of the runtime as a law
      (class [GlobLaws]). [posix] is an instance that computes: its matcher
      reads a string octet by octet, as [fnmatch.fnmatch] reads 7-bit text;
      it serves the concrete runs, whose patterns are 7-bit text, and the
      properties of patterns that are plain names.
    - Effects: the output artifact is the sequence of [out.write] calls that
      returned, the console the sequence of per-file error lines; both
      survive an exception, so an action is a function from the state to the
      state and either a value or the exception raised. Standard output
      takes every string, the escape of an undecodable byte included (the
      error handler Python gives it under the C locale), so [print] returns. *)

From Stdlib Require Import List String Ascii Bool Arith Lia NArith.
From Stdlib Require Import Sorting.Permutation.
From Stdlib Require Import Strings.Byte.
Import ListNotations.
Local Open Scope string_scope.
Local Open Scope list_scope.

Set Implicit Arguments.

(** ** Python values, exceptions and the runtime *)

Module Py.

(** The exceptions the embedded code can meet. *)
Inductive exn : Type :=
| ValueError            (* [relative_to]: the path is not below the root *)
| OSError               (* [open] or [read] failed *)
| IsADirectoryError     (* [open] on a directory *)
| UnicodeDecodeError    (* the bytes are not valid text *)
| UnicodeEncodeError.   (* the text has no encoding *)

Inductive result (A : Type) : Type :=
| Ok (a : A)
| Raise (e : exn).
Arguments Ok {A} a.
Arguments Raise {A} e.

Definition path := list string.

(** The values compared by [==] in the filters of the walk: a string and a
    [Path] object are values of different types. *)
Inductive value : Type :=
| Str (s : string)
| PathObj (p : path).

(** [a == b]: [str.__eq__] and [PurePath.__eq__] both answer
    [NotImplemented] for an operand of the other type, and two distinct
    objects are then unequal. *)
Definition eq (a b : value) : bool :=
  match a, b with
  | Str s, Str t => String.eqb s t
  | PathObj p, PathObj q => if list_eq_dec string_dec p q then true else false
  | _, _ => false
  end.

(** [a != b] *)
Definition ne (a b : value) : bool := negb (eq a b).

(** [s.startswith(p)] *)
Definition startswith (s p : string) : bool := String.prefix p s.

(** [s.endswith(c)] for a one-character suffix. *)
Fixpoint endswith (s : string) (c : ascii) : bool :=
  match s with
  | EmptyString => false
  | String a EmptyString => Ascii.eqb a c
  | String _ s' => endswith s' c
  end.

(** [s[1:]] *)
Definition from1 (s : string) : string :=
  match s with
  | EmptyString => EmptyString
  | String _ s' => s'
  end.

(** [str(p)] for a relative [PurePosixPath]: the components joined by the
    separator, and ["."] for the empty path. *)
Fixpoint join_parts (p : path) : string :=
  match p with
  | [] => ""
  | [x] => x
  | x :: p' => x ++ "/" ++ join_parts p'
  end.

Definition str_path (p : path) : string :=
  match p with
  | [] => "."
  | _ => join_parts p
  end.

(** [p.relative_to(root)]: the components of [p] after those of [root],
    [ValueError] when [root] is not a prefix of [p]. *)
Fixpoint relative_to (p root : path) {struct root} : result path :=
  match root with
  | [] => Ok p
  | r :: root' =>
      match p with
      | [] => Raise ValueError
      | x :: p' => if String.eqb x r then relative_to p' root' else Raise ValueError
      end
  end.

(** [os.path.relpath(p, start)] on absolute, normalised paths: drop the
    common prefix, climb out of what is left of [start]. *)
Fixpoint relpath (p start : path) : path :=
  match p, start with
  | x :: p', s :: start' =>
      if String.eqb x s then relpath p' start'
      else repeat ".." (List.length start) ++ p
  | _, _ => repeat ".." (List.length start) ++ p
  end.

(** The white space [str.strip] removes is the set of characters for which
    [str.isspace] holds. Those of one octet: U+0009 to U+000D, U+001C to
    U+0020. *)
Definition isspace (c : ascii) : bool :=
  let n := nat_of_ascii c in
  (Nat.leb 9 n && Nat.leb n 13) || (Nat.leb 28 n && Nat.leb n 32).

(** Those of two octets: U+0085 and U+00A0. *)
Definition isspace2 (c d : ascii) : bool :=
  Nat.eqb (nat_of_ascii c) 194
  && (Nat.eqb (nat_of_ascii d) 133 || Nat.eqb (nat_of_ascii d) 160).

(** Those of three octets: U+1680, U+2000 to U+200A, U+2028, U+2029,
    U+202F, U+205F and U+3000. *)
Definition isspace3 (c d e : ascii) : bool :=
  let c := nat_of_ascii c in
  let d := nat_of_ascii d in
  let e := nat_of_ascii e in
  (Nat.eqb c 225 && Nat.eqb d 154 && Nat.eqb e 128)
  || (Nat.eqb c 226 && Nat.eqb d 128
      && ((Nat.leb 128 e && Nat.leb e 138)
          || Nat.eqb e 168 || Nat.eqb e 169 || Nat.eqb e 175))
  || (Nat.eqb c 226 && Nat.eqb d 129 && Nat.eqb e 159)
  || (Nat.eqb c 227 && Nat.eqb d 128 && Nat.eqb e 128).

(** What follows the white-space character a string begins with, if it
    begins with one. *)
Definition after_space (s : string) : option string :=
  match s with
  | String c s1 =>
      if isspace c then Some s1
      else
        match s1 with
        | String d s2 =>
            if isspace2 c d then Some s2
            else
              match s2 with
              | String e s3 => if isspace3 c d e then Some s3 else None
              | EmptyString => None
              end
        | EmptyString => None
        end
  | EmptyString => None
  end.

(** [s.lstrip()] *)
Fixpoint lstrip (s : string) : string :=
  match s with
  | String c s1 =>
      if isspace c then lstrip s1
      else
        match s1 with
        | String d s2 =>
            if isspace2 c d then lstrip s2
            else
              match s2 with
              | String e s3 => if isspace3 c d e then lstrip s3 else s
              | EmptyString => s
              end
        | EmptyString => s
        end
  | EmptyString => EmptyString
  end.

(** The string is white space from end to end. *)
Definition blank (s : string) : bool :=
  match lstrip s with
  | EmptyString => true
  | String _ _ => false
  end.

(** [s.rstrip()]: the string up to the white space it ends with. *)
Fixpoint rstrip (s : string) : string :=
  match s with
  | EmptyString => EmptyString
  | String c s' => if blank s then EmptyString else String c (rstrip s')
  end.

(** [s.strip()] *)
Definition strip (s : string) : string := rstrip (lstrip s).

(** The lines a text file yields when iterated, without their terminators
    (which [strip] removes anyway); [cur] is the line being read. *)
Fixpoint lines_acc (s : string) (cur : string) : list string :=
  match s with
  | EmptyString => match cur with EmptyString => [] | _ => [cur] end
  | String c s' =>
      if Ascii.eqb c "010"%char then cur :: lines_acc s' EmptyString
      else lines_acc s' (cur ++ String c EmptyString)
  end.

Definition lines (s : string) : list string := lines_acc s EmptyString.

(** What the embedded code takes from the Python runtime and the system. *)
Class Runtime : Type := {
  (** [fnmatch.fnmatch(name, pat)] *)
  fnmatch : string -> string -> bool;
  (** the text a text-mode [read] with [encoding='utf-8'] returns for the
      bytes of a file, [None] when they do not decode *)
  decode : list byte -> option string;
  (** whether a text-mode [write] with [encoding='utf-8'] can encode the
      string: a file name with the escape of an undecodable byte has no
      encoding, and the [write] raises [UnicodeEncodeError] *)
  encodes : string -> bool;
  (** whether [open(path, 'w', encoding='utf-8')] creates the file *)
  can_create : path -> bool
}.

End Py.
Export Py.

(** ** The glob matcher of the standard library, octet by octet

    The matcher of [fnmatch] reads code points; this one reads the octets of
    a string one by one, and is that matcher on 7-bit text. [translate]
    follows [fnmatch.translate] of CPython: a pattern becomes a list of
    tokens, [*] any run of characters (separators included), [?] one
    character, [[seq]] and [[!seq]] a set with its ranges, and a [[] that is
    never closed stands for itself. *)

Module Fnmatch.

Inductive token : Type :=
| Star
| AnyChar
| Lit (c : ascii)
| CharSet (negated : bool) (chunks : list (list ascii))
| Never.

Definition bang : ascii := "!"%char.
Definition hyphen : ascii := "-"%char.
Definition rbracket : ascii := "]"%char.

(** The characters before the first closing bracket. *)
Fixpoint until_close (r : list ascii) : option (list ascii) :=
  match r with
  | [] => None
  | c :: r' =>
      if Ascii.eqb c rbracket then Some []
      else option_map (cons c) (until_close r')
  end.

(** What stands between a [[] and the bracket that closes it: a [!] and a
    [\]] right after the opening bracket do not close the set. *)
Definition bracket_stuff (r : list ascii) : option (list ascii) :=
  let '(b, r1) :=
    match r with
    | c :: r1 => if Ascii.eqb c bang then ([c], r1) else ([], r)
    | [] => ([], r)
    end in
  let '(k, r2) :=
    match r1 with
    | c :: r2 => if Ascii.eqb c rbracket then ([c], r2) else ([], r1)
    | [] => ([], r1)
    end in
  option_map (fun s => b ++ k ++ s) (until_close r2).

(** The chunks of a set: a hyphen splits them when it can be the operator of
    a range, which the first character and the two characters after a
    hyphen cannot. [skip] counts the characters still to pass before a hyphen
    splits again, [cur] is the chunk being read. *)
Fixpoint chunks_of (s : list ascii) (skip : nat) (cur : list ascii)
  : list (list ascii) :=
  match s with
  | [] => [cur]
  | c :: s' =>
      match skip with
      | S k => chunks_of s' k (cur ++ [c])
      | O =>
          if Ascii.eqb c hyphen then cur :: chunks_of s' 2 []
          else chunks_of s' 0 (cur ++ [c])
      end
  end.

(** A hyphen that ends the set is a character of the chunk before it. *)
Fixpoint trailing_hyphen (cs : list (list ascii)) : list (list ascii) :=
  match cs with
  | [] => []
  | [c] => [c]
  | c :: ([l] as cs') =>
      match l with
      | [] => [c ++ [hyphen]]
      | _ => c :: trailing_hyphen cs'
      end
  | c :: cs' => c :: trailing_hyphen cs'
  end.

Definition ascii_ltb (a b : ascii) : bool :=
  Nat.ltb (nat_of_ascii a) (nat_of_ascii b).

Definition ascii_leb (a b : ascii) : bool :=
  Nat.leb (nat_of_ascii a) (nat_of_ascii b).

(** Empty ranges are removed, from the last chunk to the first: the two
    bounds go and the neighbours become one chunk. *)
Fixpoint drop_empty_ranges (cs : list (list ascii)) : list (list ascii) :=
  match cs with
  | [] => []
  | c :: cs' =>
      match drop_empty_ranges cs' with
      | [] => [c]
      | d :: ds =>
          match rev c, d with
          | lo :: _, hi :: d' =>
              if ascii_ltb hi lo then (removelast c ++ d') :: ds
              else c :: d :: ds
          | _, _ => c :: d :: ds
          end
      end
  end.

Definition set_chunks (stuff : list ascii) : list (list ascii) :=
  let skip := match stuff with
              | c :: _ => if Ascii.eqb c bang then 2 else 1
              | [] => 1
              end in
  drop_empty_ranges (trailing_hyphen (chunks_of stuff skip [])).

Definition set_token (stuff : list ascii) : token :=
  match set_chunks stuff with
  | [[]] => Never
  | (c :: first) :: rest =>
      if Ascii.eqb c bang then
        match first, rest with
        | [], [] => AnyChar
        | _, _ => CharSet true (first :: rest)
        end
      else CharSet false ((c :: first) :: rest)
  | cs => CharSet false cs
  end.

(** [skip] counts the characters of a set already translated. *)
Fixpoint translate (pat : list ascii) (skip : nat) : list token :=
  match pat with
  | [] => []
  | c :: pat' =>
      match skip with
      | S k => translate pat' k
      | O =>
          if Ascii.eqb c "*"%char then Star :: translate pat' 0
          else if Ascii.eqb c "?"%char then AnyChar :: translate pat' 0
          else if Ascii.eqb c "["%char then
            match bracket_stuff pat' with
            | None => Lit c :: translate pat' 0
            | Some stuff => set_token stuff :: translate pat' (S (List.length stuff))
            end
          else Lit c :: translate pat' 0
      end
  end.

Definition mem (c : ascii) (l : list ascii) : bool :=
  existsb (Ascii.eqb c) l.

(** The characters of the chunks, and the ranges from the last character of
    a chunk to the first of the next. *)
Fixpoint in_chunks (c : ascii) (cs : list (list ascii)) : bool :=
  match cs with
  | [] => false
  | ch :: cs' =>
      mem c ch
      || match rev ch, cs' with
         | lo :: _, (hi :: _) :: _ => ascii_leb lo c && ascii_leb c hi
         | _, _ => false
         end
      || in_chunks c cs'
  end.

Definition accepts (t : token) (c : ascii) : bool :=
  match t with
  | Star => true
  | AnyChar => true
  | Lit a => Ascii.eqb a c
  | CharSet negated cs => xorb negated (in_chunks c cs)
  | Never => false
  end.

(** The whole name against the tokens. *)
Fixpoint matches (ts : list token) : list ascii -> bool :=
  match ts with
  | [] => fun s => match s with [] => true | _ => false end
  | Star :: ts' =>
      fix star (s : list ascii) : bool :=
        matches ts' s || match s with
                         | [] => false
                         | _ :: s' => star s'
                         end
  | t :: ts' =>
      fun s => match s with
               | [] => false
               | c :: s' => accepts t c && matches ts' s'
               end
  end.

(** [fnmatch.fnmatch(name, pat)] where [os.path.normcase] is the identity. *)
Definition fnmatch (name pat : string) : bool :=
  matches (translate (list_ascii_of_string pat) 0) (list_ascii_of_string name).

End Fnmatch.

(** ** Text-mode reading: UTF-8 and universal newlines *)

Module Text.

Definition between (lo hi : N) (b : byte) : bool :=
  (N.leb lo (Byte.to_N b) && N.leb (Byte.to_N b) hi)%bool.

Definition cont (b : byte) : bool := between 128 191 b.

(** Well-formed UTF-8 byte sequences. *)
Fixpoint utf8_valid (bs : list byte) : bool :=
  match bs with
  | [] => true
  | b0 :: r0 =>
      if between 0 127 b0 then utf8_valid r0
      else
        match r0 with
        | [] => false
        | b1 :: r1 =>
            if between 194 223 b0 then cont b1 && utf8_valid r1
            else
              match r1 with
              | [] => false
              | b2 :: r2 =>
                  if between 224 224 b0 then
                    between 160 191 b1 && cont b2 && utf8_valid r2
                  else if between 237 237 b0 then
                    between 128 159 b1 && cont b2 && utf8_valid r2
                  else if between 225 239 b0 then
                    cont b1 && cont b2 && utf8_valid r2
                  else
                    match r2 with
                    | [] => false
                    | b3 :: r3 =>
                        if between 240 240 b0 then
                          between 144 191 b1 && cont b2 && cont b3 && utf8_valid r3
                        else if between 241 243 b0 then
                          cont b1 && cont b2 && cont b3 && utf8_valid r3
                        else if between 244 244 b0 then
                          between 128 143 b1 && cont b2 && cont b3 && utf8_valid r3
                        else false
                    end
              end
        end
  end.

Definition cr : ascii := "013"%char.
Definition lf : ascii := "010"%char.

(** A carriage return, alone or before a line feed, is read as a line feed. *)
Fixpoint universal_newlines (s : string) : string :=
  match s with
  | EmptyString => EmptyString
  | String c s' =>
      if Ascii.eqb c cr then
        match s' with
        | String d s'' =>
            if Ascii.eqb d lf then String lf (universal_newlines s'')
            else String lf (universal_newlines s')
        | EmptyString => String lf EmptyString
        end
      else String c (universal_newlines s')
  end.

(** The text is kept as its UTF-8 octets. *)
Definition decode_utf8 (bs : list byte) : option string :=
  if utf8_valid bs then Some (universal_newlines (string_of_list_byte bs))
  else None.

End Text.

(** The runtime the concrete evaluations use: a POSIX system with UTF-8
    text where the artifact can be created. A string has an encoding when its
    octets are well-formed UTF-8. *)
#[global] Instance posix : Runtime := {
  fnmatch := Fnmatch.fnmatch;
  decode := Text.decode_utf8;
  encodes := fun s => Text.utf8_valid (list_byte_of_string s);
  can_create := fun _ => true
}.

(** ** The directory tree, the output artifact and the console *)

Module Run.

(** The bytes of a plain file, [None] when it cannot be opened or read. *)
Definition file_data : Type := option (list byte).

(** A directory as [os.walk] lists it: plain files and sub-directories. *)
#[local] Unset Elimination Schemes.
Inductive tree : Type :=
| Node (files : list (string * file_data)) (dirs : list (string * tree)).
#[local] Set Elimination Schemes.

Inductive entry : Type :=
| IsFile (data : file_data)
| IsDir (t : tree).

Fixpoint assoc {A : Type} (name : string) (l : list (string * A)) : option A :=
  match l with
  | [] => None
  | (n, a) :: l' => if String.eqb n name then Some a else assoc name l'
  end.

(** What a path relative to the root of the tree names. *)
Fixpoint lookup (t : tree) (p : path) {struct t} : option entry :=
  match p with
  | [] => Some (IsDir t)
  | x :: p' =>
      match t with
      | Node files dirs =>
          match p', assoc x files with
          | [], Some data => Some (IsFile data)
          | _, _ =>
              (fix find (ds : list (string * tree)) : option entry :=
                 match ds with
                 | [] => None
                 | (n, sub) :: ds' =>
                     if String.eqb n x then lookup sub p' else find ds'
                 end) dirs
          end
      end
  end.

(** One call of [out.write]: the separator line of a file, or its text. *)
Inductive write : Type :=
| Separator (rel_path : path)
| Contents (text : string).

(** One line of the console: [print(f"Error processing {file_path}: {e}")]. *)
Inductive log_line : Type :=
| ErrorProcessing (file_path : path) (e : exn).

Record state : Type := {
  out : list write;
  console : list log_line
}.

Definition initial : state := {| out := []; console := [] |}.

(** [f"\n{'=' * 7}{rel_path}{'=' * 7}\n"] and the text written after it. *)
Definition render (w : write) : string :=
  match w with
  | Separator rel_path =>
      String "010" ("=======" ++ str_path rel_path ++ "=======" ++ String "010" "")
  | Contents text => text
  end.

(** The text of the output artifact. *)
Definition artifact (st : state) : string :=
  String.concat "" (map render (out st)).

(** An action changes the state and returns a value or raises. *)
Definition action (A : Type) : Type := state -> state * result A.

Definition ret {A : Type} (a : A) : action A := fun st => (st, Ok a).

Definition raise {A : Type} (e : exn) : action A := fun st => (st, Raise e).

Definition bind {A B : Type} (m : action A) (k : A -> action B) : action B :=
  fun st =>
    match m st with
    | (st', Ok a) => k a st'
    | (st', Raise e) => (st', Raise e)
    end.

(** [try: m except Exception as e: h e] *)
Definition try_except {A : Type} (m : action A) (h : exn -> action A) : action A :=
  fun st =>
    match m st with
    | (st', Ok a) => (st', Ok a)
    | (st', Raise e) => h e st'
    end.

Definition lift {A : Type} (r : result A) : action A := fun st => (st, r).

(** Whether the text of a write has an encoding. The separator has one when
    the path it holds has; the text of a file was decoded from UTF-8 and
    always has one. *)
Definition writable {R : Runtime} (w : write) : bool :=
  match w with
  | Separator rel_path => encodes (str_path rel_path)
  | Contents _ => true
  end.

(** [out.write(...)]: the text is encoded as a whole before any of it is
    written. *)
Definition out_write {R : Runtime} (w : write) : action unit :=
  fun st =>
    if writable w
    then ({| out := out st ++ [w]; console := console st |}, Ok tt)
    else (st, Raise UnicodeEncodeError).

(** [print(...)]: standard output takes every string. *)
Definition print (l : log_line) : action unit :=
  fun st => ({| out := out st; console := console st ++ [l] |}, Ok tt).

Declare Scope action_scope.
Delimit Scope action_scope with action.
Notation "x <- m ;; k" := (bind m (fun x => k))
  (at level 61, m at next level, right associativity) : action_scope.
Notation "m ;; k" := (bind m (fun _ => k))
  (at level 61, right associativity) : action_scope.

(** [for x in xs: body x]: an exception leaves the loop. *)
Fixpoint for_each {A : Type} (xs : list A) (body : A -> action unit) : action unit :=
  match xs with
  | [] => ret tt
  | x :: xs' => bind (body x) (fun _ => for_each xs' body)
  end.

(** A loop whose body may [return]: the value of the first iteration that
    returns, [None] when the loop runs to its end. *)
Fixpoint for_return {A R : Type} (xs : list A) (body : A -> option R) : option R :=
  match xs with
  | [] => None
  | x :: xs' =>
      match body x with
      | Some r => Some r
      | None => for_return xs' body
      end
  end.

(** A list comprehension whose element expression may raise. *)
Fixpoint comprehension {A B : Type} (f : A -> result B) (xs : list A) : result (list B) :=
  match xs with
  | [] => Ok []
  | x :: xs' =>
      match f x with
      | Raise e => Raise e
      | Ok b =>
          match comprehension f xs' with
          | Raise e => Raise e
          | Ok bs => Ok (b :: bs)
          end
      end
  end.

(** The generator of [os.walk] resumed after the body of the loop: it
    descends, in order, into the sub-directories the body left in [dirs];
    [ignored] holds the verdict of the filter for each one. *)
Fixpoint descend (visit : path -> tree -> action unit) (top : path)
    (dirs : list (string * tree)) (ignored : list bool) : action unit :=
  match dirs, ignored with
  | (d, sub) :: dirs', i :: ignored' =>
      if i then descend visit top dirs' ignored'
      else bind (visit (top ++ [d]) sub) (fun _ => descend visit top dirs' ignored')
  | _, _ => ret tt
  end.

(** [f.read(n)] on a file opened with ['rb']. *)
Definition read_bytes (data : file_data) (n : nat) : result (list byte) :=
  match data with
  | None => Raise OSError
  | Some bs => Ok (firstn n bs)
  end.

(** [f.read()] on a file opened with ['r', encoding='utf-8']. *)
Definition read_text {R : Runtime} (data : file_data) : result string :=
  match data with
  | None => Raise OSError
  | Some bs =>
      match decode bs with
      | Some text => Ok text
      | None => Raise UnicodeDecodeError
      end
  end.

End Run.
Export Run.

(** ** [src/contextro.py]: class [Contextro] *)

Module Contextro.
Section Contextro.
Context {R : Runtime}.
Local Open Scope action_scope.

(** The attributes of an instance. *)
Record t : Type := {
  root_dir : path;
  ignore_file : path;
  ignore_patterns : list string
}.

(** [_load_ignore_patterns]: [fs] is the tree below [root_dir] and
    [ignore_file] the path of the ignore file relative to it; the file is
    read with the encoding of the locale, UTF-8 here. *)
Definition _load_ignore_patterns (fs : tree) (ignore_file : path)
  : result (list string) :=
  match lookup fs ignore_file with
  | None => Ok []
  | Some (IsDir _) => Raise IsADirectoryError
  | Some (IsFile data) =>
      match read_text data with
      | Raise e => Raise e
      | Ok text =>
          Ok (filter
                (fun line => negb (String.eqb line "") && negb (startswith line "#"))
                (map strip (lines text)))
      end
  end.

(** [__init__] *)
Definition __init__ (fs : tree) (root_dir ignore_file : path) : result t :=
  match _load_ignore_patterns fs ignore_file with
  | Raise e => Raise e
  | Ok patterns =>
      Ok {| root_dir := root_dir;
            ignore_file := root_dir ++ ignore_file;
            ignore_patterns := patterns ++ ["contextro_context_*.txt"] |}
  end.

(** The three variations of a pattern. *)
Definition pattern_variations (pattern : string) : list string :=
  [pattern; ("**/" ++ pattern)%string; ("**/" ++ pattern ++ "/**")%string].

(** The body of the loop over the patterns: [Some b] when it returns [b]. *)
Definition pattern_body (rel_path rel_path_with_slash pattern : string)
  : option bool :=
  if startswith pattern "!" then
    let clean_pattern := from1 pattern in
    for_return (pattern_variations pattern)
      (fun var => if fnmatch rel_path clean_pattern then Some false else None)
  else
    for_return (pattern_variations pattern)
      (fun var =>
         if endswith pattern "/" then
           if fnmatch rel_path_with_slash var then Some true else None
         else if fnmatch rel_path var then Some true else None).

(** [_should_ignore]: [isdir] is the answer of [os.path.isdir(path)]. *)
Definition _should_ignore (self : t) (path : path) (isdir : bool) : result bool :=
  match relative_to path (root_dir self) with
  | Raise e => Raise e
  | Ok rel =>
      let rel_path := str_path rel in
      let rel_path_with_slash :=
        if isdir then (rel_path ++ "/")%string else rel_path in
      match for_return (ignore_patterns self)
                       (pattern_body rel_path rel_path_with_slash) with
      | Some b => Ok b
      | None => Ok false
      end
  end.

(** [_is_binary] *)
Definition _is_binary (data : file_data) : bool :=
  match read_bytes data 1024 with
  | Ok chunk => existsb (Byte.eqb x00) chunk
  | Raise _ => true
  end.

(** The body of the loop over the files of a directory. *)
Definition file_body (self : t) (top : path) (file : string * file_data)
  : action unit :=
  let file_path := top ++ [fst file] in
  ignored <- lift (_should_ignore self file_path false) ;;
  if negb ignored then
    try_except
      (if _is_binary (snd file) then ret tt
       else
         let rel_path := relpath file_path (root_dir self) in
         out_write (Separator rel_path) ;;
         text <- lift (read_text (snd file)) ;;
         out_write (Contents text))
      (fun e => print (ErrorProcessing file_path e))
  else ret tt.

(** The filter on the plain files of a directory. *)
Definition keep_file (output_file : path) (f : string) : bool :=
  ne (Str f) (PathObj output_file) && ne (Str f) (Str ".contextignore").

(** The loop over [os.walk(self.root_dir)], from the directory [top]. *)
Fixpoint walk (self : t) (output_file : path) (top : path) (here : tree)
  {struct here} : action unit :=
  match here with
  | Node files dirs =>
      let files := filter (fun f => keep_file output_file (fst f)) files in
      ignored <- lift (comprehension
                         (fun d => _should_ignore self (top ++ [fst d]) true) dirs) ;;
      for_each files (file_body self top) ;;
      descend (walk self output_file) top dirs ignored
  end.

(** [build_context], once the old artifacts are deleted and the new one is
    open: [timestamp] is the time of the run, formatted, and [fs] the tree
    below [root_dir]. *)
Definition build_context (self : t) (timestamp : string) (fs : tree)
  : action path :=
  let output_file :=
    root_dir self ++ [("contextro_context_" ++ timestamp ++ ".txt")%string] in
  walk self output_file (root_dir self) fs ;;
  ret output_file.

(** [main], up to the exit status: [directory] is the resolved root,
    [ignore_file] the value of [--ignore-file] and [fs] the tree below the
    root as the walk lists it (the ignore file is read from it as well).
    [build_context] raises before it writes when the artifact cannot be
    created. *)
Definition main (fs : tree) (directory ignore_file : path) (timestamp : string)
  : state * nat :=
  match __init__ fs directory ignore_file with
  | Raise _ => (initial, 1)
  | Ok builder =>
      if can_create
           (directory ++ [("contextro_context_" ++ timestamp ++ ".txt")%string])
      then
        match build_context builder timestamp fs initial with
        | (st, Ok _) => (st, 0)
        | (st, Raise _) => (st, 1)
        end
      else (initial, 1)
  end.

End Contextro.
End Contextro.

(** ** [src/context_builder.py]: class [ContextBuilder] *)

Module ContextBuilder.
Section ContextBuilder.
Context {R : Runtime}.
Local Open Scope action_scope.

Record t : Type := {
  root_dir : path;
  ignore_file : path;
  ignore_patterns : list string
}.

(** [_load_ignore_patterns] *)
Definition _load_ignore_patterns (fs : tree) (ignore_file : path)
  : result (list string) :=
  match lookup fs ignore_file with
  | None => Ok []
  | Some (IsDir _) => Raise IsADirectoryError
  | Some (IsFile data) =>
      match read_text data with
      | Raise e => Raise e
      | Ok text =>
          Ok (filter
                (fun line => negb (String.eqb line "") && negb (startswith line "#"))
                (map strip (lines text)))
      end
  end.

(** [__init__] *)
Definition __init__ (fs : tree) (root_dir ignore_file : path) : result t :=
  match _load_ignore_patterns fs ignore_file with
  | Raise e => Raise e
  | Ok patterns =>
      Ok {| root_dir := root_dir;
            ignore_file := root_dir ++ ignore_file;
            ignore_patterns := patterns |}
  end.

(** The body of the loop over the patterns: [Some b] when it returns [b]. *)
Definition pattern_body (rel_path pattern : string) : option bool :=
  if startswith pattern "!" then
    if fnmatch rel_path (from1 pattern) then Some false else None
  else if endswith pattern "/" then
    if fnmatch (rel_path ++ "/")%string pattern then Some true else None
  else if fnmatch rel_path pattern then Some true else None.

(** [_should_ignore] *)
Definition _should_ignore (self : t) (path : path) : result bool :=
  match relative_to path (root_dir self) with
  | Raise e => Raise e
  | Ok rel =>
      let rel_path := str_path rel in
      match for_return (ignore_patterns self) (pattern_body rel_path) with
      | Some b => Ok b
      | None => Ok false
      end
  end.

(** [_is_binary] *)
Definition _is_binary (data : file_data) : bool :=
  match read_bytes data 1024 with
  | Ok chunk => existsb (Byte.eqb x00) chunk
  | Raise _ => true
  end.

(** The body of the loop over the files of a directory. *)
Definition file_body (self : t) (top : path) (file : string * file_data)
  : action unit :=
  let file_path := top ++ [fst file] in
  ignored <- lift (_should_ignore self file_path) ;;
  if negb ignored then
    try_except
      (if _is_binary (snd file) then ret tt
       else
         let rel_path := relpath file_path (root_dir self) in
         out_write (Separator rel_path) ;;
         text <- lift (read_text (snd file)) ;;
         out_write (Contents text))
      (fun e => print (ErrorProcessing file_path e))
  else ret tt.

(** The filter on the plain files of a directory. *)
Definition keep_file (output_file : path) (f : string) : bool :=
  ne (Str f) (PathObj output_file) && ne (Str f) (Str ".contextignore").

(** The loop over [os.walk(self.root_dir)], from the directory [top]. *)
Fixpoint walk (self : t) (output_file : path) (top : path) (here : tree)
  {struct here} : action unit :=
  match here with
  | Node files dirs =>
      let files := filter (fun f => keep_file output_file (fst f)) files in
      ignored <- lift (comprehension
                         (fun d => _should_ignore self (top ++ [fst d])) dirs) ;;
      for_each files (file_body self top) ;;
      descend (walk self output_file) top dirs ignored
  end.

(** [build_context] *)
Definition build_context (self : t) (timestamp : string) (fs : tree)
  : action path :=
  let output_file :=
    root_dir self ++ [("context_" ++ timestamp ++ ".txt")%string] in
  walk self output_file (root_dir self) fs ;;
  ret output_file.

End ContextBuilder.
End ContextBuilder.

(** ** Notions used to state the properties *)

Module Props.
Section Props.
Context {R : Runtime}.

(** A pattern of the richer variant produces a match on a path: a negation
    pattern when the path matches it without its marker, with the verdict
    keep ([false]); another pattern when the path (with its slash, for a
    directory-only pattern) matches one of the three variations, with the
    verdict ignore ([true]). *)
Inductive produces_match (rel_path rel_path_with_slash : string)
  : string -> bool -> Prop :=
| match_negation (pattern : string) :
    startswith pattern "!" = true ->
    fnmatch rel_path (from1 pattern) = true ->
    produces_match rel_path rel_path_with_slash pattern false
| match_variation (pattern var : string) :
    startswith pattern "!" = false ->
    In var (Contextro.pattern_variations pattern) ->
    fnmatch (if endswith pattern "/" then rel_path_with_slash else rel_path) var
      = true ->
    produces_match rel_path rel_path_with_slash pattern true.

(** The same for the simpler variant, which tests the pattern itself. *)
Inductive produces_match_simple (rel_path : string) : string -> bool -> Prop :=
| simple_negation (pattern : string) :
    startswith pattern "!" = true ->
    fnmatch rel_path (from1 pattern) = true ->
    produces_match_simple rel_path pattern false
| simple_directory (pattern : string) :
    startswith pattern "!" = false ->
    endswith pattern "/" = true ->
    fnmatch (rel_path ++ "/")%string pattern = true ->
    produces_match_simple rel_path pattern true
| simple_regular (pattern : string) :
    startswith pattern "!" = false ->
    endswith pattern "/" = false ->
    fnmatch rel_path pattern = true ->
    produces_match_simple rel_path pattern true.

(** The three expansions of the stripped pattern that the specification
    gives for a negation pattern. *)
Definition negation_expansions (pattern : string) : list string :=
  let clean_pattern := from1 pattern in
  [clean_pattern; ("**/" ++ clean_pattern)%string;
   ("**/" ++ clean_pattern ++ "/**")%string].

(** The walk of the richer variant from the directory [rel] (relative to the
    root) reaches the plain file [f] of the directory [dir]: the file passes
    the filter on the names, and every directory on the way was kept. *)
Inductive visits (self : Contextro.t) (output_file : path)
  : path -> tree -> path -> string * file_data -> Prop :=
| visits_here (rel : path) files dirs f :
    In f files ->
    Contextro.keep_file output_file (fst f) = true ->
    visits self output_file rel (Node files dirs) rel f
| visits_below (rel : path) files dirs d sub dir f :
    In (d, sub) dirs ->
    Contextro._should_ignore self (Contextro.root_dir self ++ rel ++ [d]) true
      = Ok false ->
    visits self output_file (rel ++ [d]) sub dir f ->
    visits self output_file rel (Node files dirs) dir f.

(** What the body of the loop over the files writes and prints for a file
    of the directory [dir]. *)
Definition file_writes (self : Contextro.t) (dir : path) (f : string * file_data)
  : list write :=
  match Contextro._should_ignore self
          (Contextro.root_dir self ++ dir ++ [fst f]) false with
  | Ok false =>
      if Contextro._is_binary (snd f) then []
      else if encodes (str_path (dir ++ [fst f])) then
        match read_text (snd f) with
        | Ok text => [Separator (dir ++ [fst f]); Contents text]
        | Raise _ => [Separator (dir ++ [fst f])]
        end
      else []
  | _ => []
  end.

Definition file_prints (self : Contextro.t) (dir : path) (f : string * file_data)
  : list log_line :=
  match Contextro._should_ignore self
          (Contextro.root_dir self ++ dir ++ [fst f]) false with
  | Ok false =>
      if Contextro._is_binary (snd f) then []
      else if encodes (str_path (dir ++ [fst f])) then
        match read_text (snd f) with
        | Ok _ => []
        | Raise e =>
            [ErrorProcessing (Contextro.root_dir self ++ dir ++ [fst f]) e]
        end
      else [ErrorProcessing (Contextro.root_dir self ++ dir ++ [fst f])
              UnicodeEncodeError]
  | _ => []
  end.

(** What the walk from the directory [rel] produces, in order, when the body
    of the loop produces [per_file dir f] for the file [f] of the directory
    [dir]: the files of the directory first, then each sub-directory that
    was kept. *)
Fixpoint collect {X : Type} (self : Contextro.t) (output_file : path)
    (per_file : path -> string * file_data -> list X) (rel : path)
    (here : tree) {struct here} : list X :=
  match here with
  | Node files dirs =>
      flat_map (per_file rel)
        (filter (fun f => Contextro.keep_file output_file (fst f)) files)
      ++ flat_map
           (fun d =>
              match d with
              | (name, sub) =>
                  match Contextro._should_ignore self
                          (Contextro.root_dir self ++ rel ++ [name]) true with
                  | Ok false =>
                      collect self output_file per_file (rel ++ [name]) sub
                  | _ => []
                  end
              end) dirs
  end.

Definition tree_writes (self : Contextro.t) (output_file : path)
  : path -> tree -> list write :=
  collect self output_file (file_writes self).

Definition tree_prints (self : Contextro.t) (output_file : path)
  : path -> tree -> list log_line :=
  collect self output_file (file_prints self).

(** The verdict of the filter on the sub-directory [d] of the directory
    [rel]. *)
Definition verdict (self : Contextro.t) (rel : path) (d : string * tree) : bool :=
  match Contextro._should_ignore self
          (Contextro.root_dir self ++ rel ++ [fst d]) true with
  | Ok b => b
  | Raise _ => false
  end.

(** The state after more writes and prints. *)
Definition extend (st : state) (ws : list write) (ls : list log_line) : state :=
  {| out := out st ++ ws; console := console st ++ ls |}.

End Props.

(** A name without the characters the glob matcher reads as operators. *)
Definition literal_char (c : ascii) : bool :=
  negb (Ascii.eqb c "*" || Ascii.eqb c "?" || Ascii.eqb c "[")%char.

Definition literal (s : string) : bool :=
  forallb literal_char (list_ascii_of_string s).

(** A string without an opening bracket: as a pattern it holds no set of
    characters. *)
Definition no_bracket (s : string) : bool :=
  forallb (fun c => negb (Ascii.eqb c "[")) (list_ascii_of_string s).

(** What the properties on arbitrary patterns need of [fnmatch.fnmatch]. A
    pattern is translated from left to right, [*] matches every run of
    characters, the separator included, [?] every character, and every
    character but [*], [?] and [[] matches itself, so that:
    - a string without an opening bracket matches itself as a pattern;
    - a name that matches a pattern matches the pattern after [**/] below
      any directory;
    - a [*] between two plain strings matches whatever stands between
      them. *)
Class GlobLaws (R : Runtime) : Prop := {
  glob_self : forall s : string, no_bracket s = true -> fnmatch s s = true;
  glob_below : forall dir name pat : string,
    fnmatch name pat = true ->
    fnmatch (dir ++ "/" ++ name) ("**/" ++ pat) = true;
  glob_star : forall pre mid suf : string,
    literal pre = true -> literal suf = true ->
    fnmatch (pre ++ mid ++ suf) (pre ++ "*" ++ suf) = true
}.

(** Induction on a tree, with the sub-directories as hypotheses. *)
Fixpoint tree_ind (P : tree -> Prop)
    (H : forall files dirs, Forall (fun d => P (snd d)) dirs -> P (Node files dirs))
    (t : tree) {struct t} : P t :=
  match t with
  | Node files dirs =>
      H files dirs
        ((fix all (ds : list (string * tree)) : Forall (fun d => P (snd d)) ds :=
            match ds with
            | [] => Forall_nil _
            | d :: ds' => Forall_cons d (tree_ind P H (snd d)) (all ds')
            end) dirs)
  end.

End Props.
Export Props.

(** ** Sample trees and instances *)

Module Sample.

Definition nl : string := String "010" "".

Definition bytes (s : string) : list byte := list_byte_of_string s.

Definition root : path := ["/"; "home"; "project"].

(** An ignore file that negates every text file, next to an artifact of an
    earlier run. *)
Definition negated_txt : tree :=
  Node [(".contextignore", Some (bytes ("!*.txt" ++ nl)));
        ("contextro_context_20240101_000000.txt", Some (bytes "old"))]
       [].

Definition timestamp : string := "20240102_030405".

(** A negation of the old artifacts listed after a pattern that ignores
    every text file. *)
Definition late_negation : tree :=
  Node [(".contextignore",
         Some (bytes ("*.txt" ++ nl ++ "!old/contextro*" ++ nl)))]
       [("old",
         Node [("contextro_context_20240101_000000.txt", Some (bytes "old"))]
              [])].

(** A negation of [build] before the directory-only pattern [build/]. *)
Definition negated_build : tree :=
  Node [(".contextignore", Some (bytes ("!build" ++ nl ++ "build/" ++ nl)))]
       [("build", Node [("x.txt", Some (bytes "hi"))] [])].

(** A directory whose name reads as a set of characters. *)
Definition bracket_dir : tree :=
  Node [(".contextignore", Some (bytes ("[ab]/" ++ nl)))]
       [("[ab]", Node [("x.txt", Some (bytes "hi"))] [])].

(** A directory whose name begins with the marker of a negation. *)
Definition bang_dir : tree :=
  Node [(".contextignore", Some (bytes ("!x/" ++ nl)))]
       [("!x", Node [("x.txt", Some (bytes "hi"))] [])].

(** A directory whose name holds the other two glob operators. *)
Definition star_dir : tree :=
  Node [(".contextignore", Some (bytes ("a*b?/" ++ nl)))]
       [("a*b?", Node [("x.txt", Some (bytes "hi"))] [])].

(** The end-to-end scenario: a text file, a file with a null byte, and an
    ignored sub-directory. *)
Definition scenario : tree :=
  Node [(".contextignore", Some (bytes ("sub/" ++ nl)));
        ("a.txt", Some (bytes "hello"));
        ("b.bin", Some [x62; x00; x63])]
       [("sub", Node [("c.txt", Some (bytes "world"))] [])].


(** A file whose bytes are not valid UTF-8, before a text file. *)
Definition undecodable : tree :=
  Node [("bad.txt", Some [xff]); ("a.txt", Some (bytes "hello"))] [].

(** A name with a byte that is not text: the octet [0xff] stands for its
    escape. *)
Definition odd_name : string := String "255" ".txt".

(** A text file whose name has no encoding, before a text file. *)
Definition unencodable : tree :=
  Node [(odd_name, Some (bytes "text")); ("a.txt", Some (bytes "hello"))] [].

(** A root whose ignore file has another name than the default one. *)
Definition custom_ignore : tree :=
  Node [("my.ignore", Some (bytes ("*.log" ++ nl)));
        ("a.txt", Some (bytes "hello"));
        ("x.log", Some (bytes "noise"))]
       [].

(** A root with an artifact of an earlier run, a directory that bears the
    name of one, and an artifact below a directory; and the names of the
    root in the order [os.scandir] yields them, the directory first. *)
Definition old_artifacts : tree :=
  Node [("a.txt", Some (bytes "hello"));
        ("contextro_context_20240101_000000.txt", Some (bytes "old"))]
       [("contextro_context_dir.txt", Node [] []);
        ("sub", Node [("contextro_context_1.txt", Some [])] [])].

Definition old_listing : list string :=
  ["contextro_context_dir.txt"; "a.txt";
   "contextro_context_20240101_000000.txt"; "sub"].

(** The root as the simpler variant walks it: the artifact it has just
    opened, still empty, next to a text file. *)
Definition with_artifact : tree :=
  Node [("context_20240102_030405.txt", Some []);
        ("a.txt", Some (bytes "hello"))]
       [].

End Sample.

(** ** The shape of the artifact *)

Module Shape.








End Shape.

(** ** The walk of the simpler variant, as lists *)

Module SimpleTrace.
Section SimpleTrace.
Context {R : Runtime}.

(** What the body of the loop over the files writes and prints for a file
    of the directory [dir]. *)
Definition file_writes (self : ContextBuilder.t) (dir : path)
    (f : string * file_data) : list write :=
  match ContextBuilder._should_ignore self
          (ContextBuilder.root_dir self ++ dir ++ [fst f]) with
  | Ok false =>
      if ContextBuilder._is_binary (snd f) then []
      else if encodes (str_path (dir ++ [fst f])) then
        match read_text (snd f) with
        | Ok text => [Separator (dir ++ [fst f]); Contents text]
        | Raise _ => [Separator (dir ++ [fst f])]
        end
      else []
  | _ => []
  end.

Definition file_prints (self : ContextBuilder.t) (dir : path)
    (f : string * file_data) : list log_line :=
  match ContextBuilder._should_ignore self
          (ContextBuilder.root_dir self ++ dir ++ [fst f]) with
  | Ok false =>
      if ContextBuilder._is_binary (snd f) then []
      else if encodes (str_path (dir ++ [fst f])) then
        match read_text (snd f) with
        | Ok _ => []
        | Raise e =>
            [ErrorProcessing (ContextBuilder.root_dir self ++ dir ++ [fst f]) e]
        end
      else [ErrorProcessing (ContextBuilder.root_dir self ++ dir ++ [fst f])
              UnicodeEncodeError]
  | _ => []
  end.

(** The verdict of the filter on the sub-directory [d] of the directory
    [rel]. *)
Definition verdict (self : ContextBuilder.t) (rel : path) (d : string * tree)
  : bool :=
  match ContextBuilder._should_ignore self
          (ContextBuilder.root_dir self ++ rel ++ [fst d]) with
  | Ok b => b
  | Raise _ => false
  end.

(** What the walk from the directory [rel] produces, in order. *)
Fixpoint collect {X : Type} (self : ContextBuilder.t) (output_file : path)
    (per_file : path -> string * file_data -> list X) (rel : path)
    (here : tree) {struct here} : list X :=
  match here with
  | Node files dirs =>
      flat_map (per_file rel)
        (filter (fun f => ContextBuilder.keep_file output_file (fst f)) files)
      ++ flat_map
           (fun d =>
              match d with
              | (name, sub) =>
                  if verdict self rel (name, sub) then []
                  else collect self output_file per_file (rel ++ [name]) sub
              end) dirs
  end.

(** The walk from the directory [rel] reaches the plain file [f] of the
    directory [dir]. *)
Inductive visits (self : ContextBuilder.t) (output_file : path)
  : path -> tree -> path -> string * file_data -> Prop :=
| visits_here (rel : path) files dirs f :
    In f files ->
    ContextBuilder.keep_file output_file (fst f) = true ->
    visits self output_file rel (Node files dirs) rel f
| visits_below (rel : path) files dirs d sub dir f :
    In (d, sub) dirs ->
    ContextBuilder._should_ignore self
      (ContextBuilder.root_dir self ++ rel ++ [d]) = Ok false ->
    visits self output_file (rel ++ [d]) sub dir f ->
    visits self output_file rel (Node files dirs) dir f.

End SimpleTrace.
End SimpleTrace.

(** ** [src/contextro.py]: the old artifacts *)

Module Housekeeping.
Section Housekeeping.
Context {R : Runtime}.

(** One line of the console: [Deleted old context file: ...] or
    [Error deleting ...: ...]. *)
Inductive deletion : Type :=
| Deleted (file : path)
| ErrorDeleting (file : path) (e : exn).


(** [glob._ishidden] *)
Definition _ishidden (name : string) : bool := startswith name ".".

(** [glob.has_magic] on a path: one of its components holds a glob
    operator. *)
Definition has_magic (p : path) : bool := negb (forallb literal p).

(** The names [glob.glob] finds for a pattern in a directory whose path
    holds no glob operator: the entries of [listing], the names
    [os.scandir] yields in its order, that are not hidden, unless the
    pattern is, and that match the pattern. *)
Definition glob_names (listing : list string) (pattern : string) : list string :=
  let names :=
    if negb (_ishidden pattern)
    then filter (fun x => negb (_ishidden x)) listing
    else listing in
  filter (fun name => fnmatch name pattern) names.


Definition has_name {A : Type} (name : string) (l : list (string * A)) : bool :=
  existsb (fun e => String.eqb (fst e) name) l.


(** [os.remove] on the entry [name] of the root: a plain file goes when
    [removable] says it can be unlinked; a directory, a file that cannot be
    unlinked and a name that is no longer there raise. *)
Definition os_remove (removable : string -> bool) (fs : tree) (name : string)
  : tree * result unit :=
  match fs with
  | Node files dirs =>
      if has_name name files then
        if removable name then
          (Node (filter (fun f => negb (String.eqb (fst f) name)) files) dirs,
           Ok tt)
        else (fs, Raise OSError)
      else if has_name name dirs then (fs, Raise IsADirectoryError)
      else (fs, Raise OSError)
  end.

(** The loop of [_cleanup_old_context_files] over the names found. *)
Fixpoint remove_all (removable : string -> bool) (root : path)
    (names : list string) (fs : tree) : tree * list deletion :=
  match names with
  | [] => (fs, [])
  | name :: names' =>
      match os_remove removable fs name with
      | (fs', Ok _) =>
          let '(fs'', lines) := remove_all removable root names' fs' in
          (fs'', Deleted (root ++ [name]) :: lines)
      | (fs', Raise e) =>
          let '(fs'', lines) := remove_all removable root names' fs' in
          (fs'', ErrorDeleting (root ++ [name]) e :: lines)
      end
  end.

(** [_cleanup_old_context_files]: the tree below the root afterwards, and
    the lines printed; [listing] is what [os.scandir] yields for the root.
    When the path of the root holds a glob operator, [glob.glob] reads it as
    a pattern and looks into the directories it matches, which are other
    directories than the root: the tree below the root does not tell what
    happens then, and the result is [None]. *)
Definition _cleanup_old_context_files (self : Contextro.t)
    (removable : string -> bool) (listing : list string) (fs : tree)
  : option (tree * list deletion) :=
  if has_magic (Contextro.root_dir self) then None
  else
    Some (remove_all removable (Contextro.root_dir self)
            (glob_names listing "contextro_context_*.txt") fs).

End Housekeeping.
End Housekeeping.

(** ** File names *)

Module Names.

Definition slash : ascii := "/"%char.

(** A name a directory entry can bear: not empty and without a separator. *)
Definition name_ok (name : string) : bool :=
  negb (String.eqb name "")
  && forallb (fun a => negb (Ascii.eqb a slash)) (list_ascii_of_string name).

(** The string holds two separators in a row. *)
Fixpoint double_slash (s : string) : bool :=
  match s with
  | String a ((String b _) as s') =>
      (Ascii.eqb a slash && Ascii.eqb b slash) || double_slash s'
  | _ => false
  end.

(** The string begins with a separator. *)
Definition leading_slash (s : string) : bool :=
  match s with
  | String a _ => Ascii.eqb a slash
  | EmptyString => false
  end.

End Names.

(** ** Paths and loops *)

Section PathFacts.

Lemma relative_to_app (root rel : path) :
  relative_to (root ++ rel) root = Ok rel.
Proof.
  induction root as [|r root IH]; simpl; [reflexivity|].
  now rewrite String.eqb_refl.
Qed.

Lemma relative_to_Ok (root p rel : path) :
  relative_to p root = Ok rel -> p = root ++ rel.
Proof.
  revert p; induction root as [|r root IH]; intros p; simpl.
  - now intros [= ->].
  - destruct p as [|x p]; [discriminate|].
    destruct (String.eqb x r) eqn:E; [|discriminate].
    apply String.eqb_eq in E; subst x.
    intros H; now rewrite (IH _ H).
Qed.

Lemma relative_to_raise (root p : path) (e : exn) :
  relative_to p root = Raise e -> e = ValueError.
Proof.
  revert p; induction root as [|r root IH]; intros p; simpl.
  - discriminate.
  - destruct p as [|x p]; [now intros [= <-]|].
    destruct (String.eqb x r); [apply IH|now intros [= <-]].
Qed.

Lemma relative_to_outside (root p : path) :
  (forall rel, p <> root ++ rel) -> relative_to p root = Raise ValueError.
Proof.
  intros H. destruct (relative_to p root) as [rel|e] eqn:E.
  - apply relative_to_Ok in E. now destruct (H rel).
  - now rewrite (relative_to_raise _ _ E).
Qed.

Lemma relpath_app (root rel : path) : relpath (root ++ rel) root = rel.
Proof.
  induction root as [|r root IH]; simpl.
  - now destruct rel.
  - now rewrite String.eqb_refl.
Qed.

Lemma for_return_app_none {A B : Type} (f : A -> option B) (pre l : list A) :
  (forall x, In x pre -> f x = None) ->
  for_return (pre ++ l) f = for_return l f.
Proof.
  induction pre as [|x pre IH]; simpl; intros H; [reflexivity|].
  rewrite (H x (or_introl eq_refl)). apply IH. intros y Hy. apply H. now right.
Qed.

Lemma for_return_some {A B : Type} (f : A -> option B) (l : list A) (b : B) :
  for_return l f = Some b ->
  exists pre x post,
    l = pre ++ x :: post /\ (forall y, In y pre -> f y = None) /\ f x = Some b.
Proof.
  induction l as [|x l IH]; simpl; [discriminate|].
  destruct (f x) as [r|] eqn:E.
  - intros [= ->]. exists [], x, l. repeat split; [|assumption]. intros y [].
  - intros H. destruct (IH H) as (pre & y & post & -> & Hpre & Hy).
    exists (x :: pre), y, post. repeat split; [|assumption].
    intros z [<-|Hz]; [assumption|now apply Hpre].
Qed.

Lemma for_return_none {A B : Type} (f : A -> option B) (l : list A) :
  for_return l f = None <-> (forall x, In x l -> f x = None).
Proof.
  induction l as [|x l IH]; simpl.
  - split; [intros _ y []|reflexivity].
  - destruct (f x) as [r|] eqn:E.
    + split; [discriminate|]. intros H. rewrite <- E. apply H. now left.
    + rewrite IH. split.
      * intros H y [<-|Hy]; [assumption|now apply H].
      * intros H y Hy. apply H. now right.
Qed.

End PathFacts.

(** ** The pattern matcher *)

Section Matcher.
Context {R : Runtime}.

Lemma pattern_body_complete (rp rws pattern : string) (b : bool) :
  produces_match rp rws pattern b ->
  Contextro.pattern_body rp rws pattern = Some b.
Proof.
  unfold Contextro.pattern_body, Contextro.pattern_variations.
  intros [p Hneg Hm | p var Hneg Hin Hm].
  - rewrite Hneg. simpl. now rewrite Hm.
  - rewrite Hneg. simpl in *.
    destruct (endswith p "/");
      repeat match goal with
             | |- context [if fnmatch ?a ?v then _ else _] =>
                 destruct (fnmatch a v) eqn:?; try reflexivity
             end;
      destruct Hin as [<-|[<-|[<-|[]]]]; congruence.
Qed.

Lemma pattern_body_sound (rp rws pattern : string) (b : bool) :
  Contextro.pattern_body rp rws pattern = Some b ->
  produces_match rp rws pattern b.
Proof.
  unfold Contextro.pattern_body.
  destruct (startswith pattern "!") eqn:Hneg.
  - simpl. destruct (fnmatch rp (from1 pattern)) eqn:Hm; [|discriminate].
    intros [= <-]. now apply match_negation.
  - intros H. apply for_return_some in H.
    destruct H as (pre & var & post & Hl & _ & Hv).
    assert (Hin : In var (Contextro.pattern_variations pattern)).
    { rewrite Hl. apply in_or_app. right. now left. }
    destruct (endswith pattern "/") eqn:Hd.
    + destruct (fnmatch rws var) eqn:Hm; [|discriminate].
      injection Hv as <-. apply match_variation with var; try assumption.
      now rewrite Hd.
    + destruct (fnmatch rp var) eqn:Hm; [|discriminate].
      injection Hv as <-. apply match_variation with var; try assumption.
      now rewrite Hd.
Qed.

Lemma pattern_body_none (rp rws pattern : string) :
  (forall b, ~ produces_match rp rws pattern b) ->
  Contextro.pattern_body rp rws pattern = None.
Proof.
  intros H. destruct (Contextro.pattern_body rp rws pattern) as [b|] eqn:E;
    [|reflexivity].
  apply pattern_body_sound in E. now destruct (H b).
Qed.

Lemma should_ignore_under (self : Contextro.t) (rel : path) (isdir : bool) :
  Contextro._should_ignore self (Contextro.root_dir self ++ rel) isdir =
  Ok (match for_return (Contextro.ignore_patterns self)
              (Contextro.pattern_body (str_path rel)
                 (if isdir then (str_path rel ++ "/")%string else str_path rel)) with
      | Some b => b
      | None => false
      end).
Proof.
  unfold Contextro._should_ignore. rewrite relative_to_app.
  now destruct (for_return _ _).
Qed.

(** C1. The patterns are evaluated in file order and the first one that
    produces a match decides: when no pattern before [pattern] produces a
    match on the path and [pattern] produces one with the verdict [b] (keep
    for a negation, ignore otherwise), the match operation returns [b],
    whatever the patterns after it. *)
Theorem first_match_wins (self : Contextro.t) (rel : path) (isdir : bool)
    (pre post : list string) (pattern : string) (b : bool) :
  let rel_path := str_path rel in
  let rel_path_with_slash :=
    if isdir then (rel_path ++ "/")%string else rel_path in
  Contextro.ignore_patterns self = pre ++ pattern :: post ->
  (forall q b', In q pre -> ~ produces_match rel_path rel_path_with_slash q b') ->
  produces_match rel_path rel_path_with_slash pattern b ->
  forall later : list string,
    Contextro._should_ignore
      {| Contextro.root_dir := Contextro.root_dir self;
         Contextro.ignore_file := Contextro.ignore_file self;
         Contextro.ignore_patterns := pre ++ pattern :: later |}
      (Contextro.root_dir self ++ rel) isdir = Ok b
    /\ Contextro._should_ignore self (Contextro.root_dir self ++ rel) isdir = Ok b.
Proof.
  intros rp rws Hpats Hpre Hp later.
  assert (Hloop : forall l,
             for_return (pre ++ pattern :: l) (Contextro.pattern_body rp rws)
             = Some b).
  { intros l. rewrite for_return_app_none.
    - simpl. now rewrite (pattern_body_complete Hp).
    - intros q Hq. apply pattern_body_none. intros b'. now apply Hpre. }
  split.
  - rewrite (should_ignore_under
               {| Contextro.root_dir := Contextro.root_dir self;
                  Contextro.ignore_file := Contextro.ignore_file self;
                  Contextro.ignore_patterns := pre ++ pattern :: later |}).
    simpl. fold rp. fold rws. now rewrite Hloop.
  - rewrite should_ignore_under, Hpats. fold rp. fold rws. now rewrite Hloop.
Qed.

End Matcher.

(** With [*.log] before [!x.log], the path [x.log] is ignored: the pattern
    without the marker is reached first and returns. *)
Lemma first_match_wins_x_log :
  let root := ["/"; "home"; "project"] in
  let self := {| Contextro.root_dir := root;
                 Contextro.ignore_file := root ++ [".contextignore"];
                 Contextro.ignore_patterns :=
                   ["*.log"; "!x.log"; "contextro_context_*.txt"] |} in
  Contextro._should_ignore self (root ++ ["x.log"]) false = Ok true.
Proof.
  intros root self.
  refine (proj2 (@first_match_wins posix self ["x.log"] false [] _ "*.log" true
                   eq_refl _ _ [])).
  - intros q b' [].
  - apply match_variation with "*.log"; [reflexivity|now left|reflexivity].
Defined.

(** C2. A negation pattern is tested without its marker only: the loop over
    the variations never uses its variable. With [!x.log] before [*.log], the
    path [sub/x.log] matches the expansion [**/x.log] of the stripped
    pattern, and the match operation still goes on to [*.log] and returns
    ignore. *)
Theorem negation_expansions_not_tested :
  let root := ["/"; "home"; "project"] in
  let self := {| Contextro.root_dir := root;
                 Contextro.ignore_file := root ++ [".contextignore"];
                 Contextro.ignore_patterns :=
                   ["!x.log"; "*.log"; "contextro_context_*.txt"] |} in
  In "**/x.log" (negation_expansions "!x.log")
  /\ fnmatch (str_path ["sub"; "x.log"]) "**/x.log" = true
  /\ Contextro.pattern_body (str_path ["sub"; "x.log"])
       (str_path ["sub"; "x.log"]) "!x.log" = None
  /\ Contextro._should_ignore self (root ++ ["sub"; "x.log"]) false = Ok true.
Proof.
  intros root self. repeat split.
  right. now left.
Qed.

Section MatcherOrder.
Context {R : Runtime}.

Lemma ignored_unless_negated (rp rws : string) (pre post : list string)
    (pattern : string) :
  (forall q, In q pre -> startswith q "!" = true ->
             fnmatch rp (from1 q) = false) ->
  produces_match rp rws pattern true ->
  for_return (pre ++ pattern :: post) (Contextro.pattern_body rp rws) = Some true.
Proof.
  intros Hpre Hp. induction pre as [|q pre IH]; simpl.
  - now rewrite (pattern_body_complete Hp).
  - destruct (Contextro.pattern_body rp rws q) as [b|] eqn:E.
    + apply pattern_body_sound in E. inversion E; subst; [|reflexivity].
      rewrite (Hpre q) in H0; [discriminate|now left|assumption].
    + apply IH. intros q' Hq'. apply Hpre. now right.
Qed.

Lemma for_return_app_some {A B : Type} (f : A -> option B) (pre l : list A)
    (b : B) :
  for_return pre f = Some b -> for_return (pre ++ l) f = Some b.
Proof.
  induction pre as [|x pre IH]; simpl; [discriminate|].
  destruct (f x); [trivial|exact IH].
Qed.

(** The first match decides: a pattern that ignores the path wins over the
    negations listed before it that do not match, and over those that match
    after another pattern has already ignored the path. *)
Lemma ignored_unless_kept (rp rws : string) (pre post : list string)
    (pattern : string) :
  (forall pre1 q post1,
      pre = pre1 ++ q :: post1 ->
      startswith q "!" = true -> fnmatch rp (from1 q) = true ->
      exists e, In e pre1 /\ produces_match rp rws e true) ->
  produces_match rp rws pattern true ->
  for_return (pre ++ pattern :: post) (Contextro.pattern_body rp rws) = Some true.
Proof.
  intros Hpre Hp. induction pre as [|q pre IH]; simpl.
  - now rewrite (pattern_body_complete Hp).
  - destruct (Contextro.pattern_body rp rws q) as [b|] eqn:E.
    + apply pattern_body_sound in E.
      inversion E as [p Hn Hm | p var Hn Hin Hm]; subst; [|reflexivity].
      destruct (Hpre [] q pre eq_refl Hn Hm) as (e & [] & _).
    + apply IH. intros pre1 q' post1 -> Hn Hm.
      destruct (Hpre (q :: pre1) q' post1 eq_refl Hn Hm) as (e & [<-|Hin] & He).
      * rewrite (pattern_body_complete He) in E. discriminate.
      * now exists e.
Qed.

(** When the loop returns ignore, every negation that matches the path
    stands after a pattern that ignores it. *)
Lemma kept_negation_after_ignore (rp rws : string) (pre post : list string)
    (q : string) :
  for_return (pre ++ q :: post) (Contextro.pattern_body rp rws) = Some true ->
  startswith q "!" = true -> fnmatch rp (from1 q) = true ->
  exists e, In e pre /\ produces_match rp rws e true.
Proof.
  intros H Hn Hm.
  destruct (for_return pre (Contextro.pattern_body rp rws)) as [b|] eqn:E.
  - rewrite (for_return_app_some _ _ _ E) in H. injection H as ->.
    apply for_return_some in E. destruct E as (l1 & e & l2 & -> & _ & He).
    exists e. split; [apply in_or_app; right; now left|].
    now apply pattern_body_sound.
  - rewrite for_return_app_none in H by now apply for_return_none.
    simpl in H.
    rewrite (pattern_body_complete (match_negation rp rws q Hn Hm)) in H.
    discriminate.
Qed.


End MatcherOrder.

(** ** The walk *)

Section Walk.
Context {R : Runtime}.
Variable self : Contextro.t.
Variable output_file : path.

Let root : path := Contextro.root_dir self.

Lemma extend_nil (st : state) : extend st [] [] = st.
Proof. destruct st. unfold extend. simpl. now rewrite !app_nil_r. Qed.

Lemma extend_extend (st : state) ws ls ws' ls' :
  extend (extend st ws ls) ws' ls' = extend st (ws ++ ws') (ls ++ ls').
Proof. unfold extend. simpl. now rewrite !app_assoc. Qed.

Lemma should_ignore_total (rel : path) (isdir : bool) :
  exists b, Contextro._should_ignore self (root ++ rel) isdir = Ok b.
Proof. unfold root. rewrite should_ignore_under. eauto. Qed.

Lemma file_body_spec (rel : path) (f : string * file_data) (st : state) :
  Contextro.file_body self (root ++ rel) f st =
  (extend st (file_writes self rel f) (file_prints self rel f), Ok tt).
Proof.
  unfold Contextro.file_body, file_writes, file_prints, bind, lift.
  rewrite <- app_assoc. fold root.
  destruct (should_ignore_total (rel ++ [fst f]) false) as [b ->].
  destruct b; simpl; [now rewrite extend_nil|].
  unfold try_except. destruct (Contextro._is_binary (snd f)).
  - unfold ret. now rewrite extend_nil.
  - unfold bind, out_write, writable, lift, print. fold root.
    rewrite relpath_app.
    destruct (encodes (str_path (rel ++ [fst f]))).
    + destruct (read_text (snd f)) as [text|e]; simpl; unfold extend; simpl.
      * now rewrite <- app_assoc, app_nil_r.
      * reflexivity.
    + unfold extend. simpl. now rewrite app_nil_r.
Qed.

Lemma for_each_files_spec (rel : path) (fs : list (string * file_data)) (st : state) :
  for_each fs (Contextro.file_body self (root ++ rel)) st =
  (extend st (flat_map (file_writes self rel) fs)
             (flat_map (file_prints self rel) fs), Ok tt).
Proof.
  revert st; induction fs as [|f fs IH]; intros st; simpl.
  - unfold ret. now rewrite extend_nil.
  - unfold bind. rewrite file_body_spec, IH. now rewrite extend_extend.
Qed.

Lemma comprehension_dirs (rel : path) (dirs : list (string * tree)) :
  comprehension
    (fun d => Contextro._should_ignore self ((root ++ rel) ++ [fst d]) true) dirs
  = Ok (map (verdict self rel) dirs).
Proof.
  induction dirs as [|d dirs IH]; simpl; [reflexivity|].
  rewrite IH. unfold verdict. rewrite <- app_assoc. fold root.
  now destruct (should_ignore_total (rel ++ [fst d]) true) as [b ->].
Qed.

Lemma descend_spec (rel : path) (dirs : list (string * tree)) :
  Forall
    (fun d => forall rel' st,
         Contextro.walk self output_file (root ++ rel') (snd d) st =
         (extend st (tree_writes self output_file rel' (snd d))
                    (tree_prints self output_file rel' (snd d)), Ok tt)) dirs ->
  forall st,
    descend (Contextro.walk self output_file) (root ++ rel) dirs
            (map (verdict self rel) dirs) st =
    (extend st
       (flat_map (fun d => if verdict self rel d then []
                           else tree_writes self output_file (rel ++ [fst d]) (snd d))
                 dirs)
       (flat_map (fun d => if verdict self rel d then []
                           else tree_prints self output_file (rel ++ [fst d]) (snd d))
                 dirs), Ok tt).
Proof.
  induction 1 as [|[name sub] dirs Hsub _ IHdirs]; intros st;
    cbn [descend map flat_map fst snd].
  - unfold ret. now rewrite extend_nil.
  - destruct (verdict self rel (name, sub)).
    + now rewrite IHdirs.
    + unfold bind. cbn [snd] in Hsub. rewrite <- app_assoc, Hsub, IHdirs.
      now rewrite extend_extend.
Qed.

Lemma collect_dirs {X : Type} (g : path -> string * file_data -> list X)
    (rel : path) (dirs : list (string * tree)) :
  flat_map
    (fun d =>
       match d with
       | (name, sub) =>
           match Contextro._should_ignore self
                   (Contextro.root_dir self ++ rel ++ [name]) true with
           | Ok false => collect self output_file g (rel ++ [name]) sub
           | _ => []
           end
       end) dirs
  = flat_map (fun d => if verdict self rel d then []
                       else collect self output_file g (rel ++ [fst d]) (snd d))
             dirs.
Proof.
  induction dirs as [|[name sub] dirs IH]; cbn [flat_map]; [reflexivity|].
  rewrite IH. f_equal. unfold verdict. cbn [fst snd].
  destruct (should_ignore_total (rel ++ [name]) true) as [b Hb].
  unfold root in Hb. rewrite Hb. now destruct b.
Qed.

(** The walk returns, and writes and prints what [tree_writes] and
    [tree_prints] list. *)
Lemma walk_spec (here : tree) :
  forall (rel : path) (st : state),
    Contextro.walk self output_file (root ++ rel) here st =
    (extend st (tree_writes self output_file rel here)
               (tree_prints self output_file rel here), Ok tt).
Proof.
  induction here as [files dirs IH] using tree_ind. intros rel st.
  unfold tree_writes, tree_prints. cbn [Contextro.walk collect].
  rewrite !collect_dirs.
  unfold bind at 1, lift. rewrite comprehension_dirs.
  unfold bind at 1. rewrite for_each_files_spec.
  etransitivity; [apply (descend_spec rel IH)|].
  now rewrite extend_extend.
Qed.

Lemma in_collect {X : Type} (g : path -> string * file_data -> list X) (x : X)
    (here : tree) :
  forall rel : path,
    In x (collect self output_file g rel here) <->
    exists dir f, visits self output_file rel here dir f /\ In x (g dir f).
Proof.
  induction here as [files dirs IH] using tree_ind. intros rel.
  cbn [collect]. rewrite collect_dirs, in_app_iff, !in_flat_map. split.
  - intros [(f & Hf & Hx) | (d & Hd & Hx)].
    + apply filter_In in Hf. destruct Hf as [Hf Hk].
      exists rel, f. split; [now apply visits_here|assumption].
    + destruct (verdict self rel d) eqn:Hv; [destruct Hx|].
      rewrite Forall_forall in IH. apply (IH d Hd) in Hx.
      destruct Hx as (dir & f & Hvis & Hx). exists dir, f. split; [|assumption].
      destruct d as [name sub]. apply visits_below with name sub; try assumption.
      unfold verdict in Hv. cbn [fst] in Hv. fold root in Hv.
      destruct (should_ignore_total (rel ++ [name]) true) as [b Hb].
      rewrite Hb in Hv. now subst b.
  - intros (dir & f & Hvis & Hx).
    inversion Hvis as [rel0 fs0 ds0 f0 Hf Hk | rel0 fs0 ds0 d sub dir0 f0 Hd Hi Hsub];
      subst.
    + left. exists f. split; [|assumption]. apply filter_In. now split.
    + right. exists (d, sub). split; [assumption|].
      unfold verdict. cbn [fst snd]. rewrite Hi.
      rewrite Forall_forall in IH. apply (IH (d, sub) Hd). now exists dir, f.
Qed.

(** Every directory on the way to a file the walk reaches was kept. *)
Lemma visits_kept (rel : path) (here : tree) (dir : path) (f : string * file_data) :
  visits self output_file rel here dir f ->
  exists ds, dir = rel ++ ds /\
    forall ds1 ds2, ds = ds1 ++ ds2 -> ds1 <> [] ->
      Contextro._should_ignore self (root ++ rel ++ ds1) true = Ok false.
Proof.
  induction 1 as [rel files dirs f Hf Hk | rel files dirs d sub dir f Hd Hi Hsub IH].
  - exists []. split; [now rewrite app_nil_r|].
    intros ds1 ds2 E. symmetry in E. apply app_eq_nil in E. now destruct E.
  - destruct IH as (ds & -> & Hds). exists (d :: ds).
    split; [now rewrite <- app_assoc|].
    intros [|x ds1] ds2 E Hne; [now destruct Hne|].
    injection E as <- ->. destruct ds1 as [|y ds1]; [exact Hi|].
    specialize (Hds (y :: ds1) ds2 eq_refl).
    rewrite <- app_assoc in Hds. apply Hds. discriminate.
Qed.

Lemma visits_filter (rel : path) (here : tree) (dir : path) (f : string * file_data) :
  visits self output_file rel here dir f ->
  Contextro.keep_file output_file (fst f) = true.
Proof. induction 1; assumption. Qed.

End Walk.

Section Run.
Context {R : Runtime}.

(** Once the artifact is open, a run returns its path, having written
    and printed what the walk from the root does. *)
Lemma build_context_spec (self : Contextro.t) (timestamp : string) (fs : tree)
    (st : state) :
  let output_file :=
    Contextro.root_dir self ++ [("contextro_context_" ++ timestamp ++ ".txt")%string] in
  Contextro.build_context self timestamp fs st =
  (extend st (tree_writes self output_file [] fs)
             (tree_prints self output_file [] fs), Ok output_file).
Proof.
  intros output_file. unfold Contextro.build_context, bind. fold output_file.
  pose proof (walk_spec self output_file fs [] st) as H.
  rewrite app_nil_r in H. now rewrite H.
Qed.

End Run.

(** ** Paths outside the root *)

Section Outside.
Context {R : Runtime}.

(** C9. For a path that is not below the root, the match operation of
    either variant raises [ValueError]: it returns neither keep nor ignore. *)
Theorem outside_root_raises (root ignore_file path : path)
    (patterns : list string) (isdir : bool) :
  (forall rel, path <> root ++ rel) ->
  Contextro._should_ignore
    {| Contextro.root_dir := root; Contextro.ignore_file := ignore_file;
       Contextro.ignore_patterns := patterns |} path isdir = Raise ValueError
  /\ ContextBuilder._should_ignore
       {| ContextBuilder.root_dir := root;
          ContextBuilder.ignore_file := ignore_file;
          ContextBuilder.ignore_patterns := patterns |} path = Raise ValueError.
Proof.
  intros H. unfold Contextro._should_ignore, ContextBuilder._should_ignore.
  cbn [Contextro.root_dir ContextBuilder.root_dir].
  now rewrite (relative_to_outside _ H).
Qed.

End Outside.

Lemma outside_root_raises_tmp :
  Contextro._should_ignore
    {| Contextro.root_dir := ["/"; "home"; "project"];
       Contextro.ignore_file := ["/"; "home"; "project"; ".contextignore"];
       Contextro.ignore_patterns := ["*"] |} ["/"; "tmp"; "x.log"] false
  = Raise ValueError
  /\ ContextBuilder._should_ignore
       {| ContextBuilder.root_dir := ["/"; "home"; "project"];
          ContextBuilder.ignore_file := ["/"; "home"; "project"; ".contextignore"];
          ContextBuilder.ignore_patterns := ["*"] |} ["/"; "tmp"; "x.log"]
     = Raise ValueError.
Proof.
  apply (@outside_root_raises posix). intros rel. simpl. discriminate.
Defined.

(** ** The filter on the plain files *)

(** C7. A file name is a string and the output file a path object: the
    comparison [f != output_file] holds for every name, so this half of the
    filter keeps every file, the whole filter keeps exactly the names other
    than [.contextignore], and the name of the artifact itself passes, in
    both variants. *)
Theorem output_file_filter_keeps_all (output_file : path) :
  (forall f : string, Py.ne (Str f) (PathObj output_file) = true)
  /\ (forall files : list (string * file_data),
        filter (fun f => Py.ne (Str (fst f)) (PathObj output_file)) files = files)
  /\ (forall f : string,
        Contextro.keep_file output_file f = Py.ne (Str f) (Str ".contextignore")
        /\ ContextBuilder.keep_file output_file f
           = Py.ne (Str f) (Str ".contextignore"))
  /\ (forall (root : path) (timestamp : string),
        Contextro.keep_file
          (root ++ [("contextro_context_" ++ timestamp ++ ".txt")%string])
          ("contextro_context_" ++ timestamp ++ ".txt") = true
        /\ ContextBuilder.keep_file
             (root ++ [("context_" ++ timestamp ++ ".txt")%string])
             ("context_" ++ timestamp ++ ".txt") = true).
Proof.
  repeat split.
  induction files as [|f files IH]; simpl; [reflexivity|]. now rewrite IH.
Qed.

(** The simpler variant has no pattern for its own artifact: the file it is
    writing is walked like any other and gets a record. *)
Example simple_variant_walks_own_artifact :
  let self := {| ContextBuilder.root_dir := Sample.root;
                 ContextBuilder.ignore_file := Sample.root ++ [".contextignore"];
                 ContextBuilder.ignore_patterns := [] |} in
  ContextBuilder.build_context self Sample.timestamp Sample.with_artifact initial
  = ({| out := [Separator ["context_20240102_030405.txt"]; Contents "";
                Separator ["a.txt"]; Contents "hello"];
        console := [] |},
     Ok (Sample.root ++ ["context_20240102_030405.txt"])).
Proof. vm_compute. reflexivity. Qed.

(** ** The binary classifier *)

Section Binary.
Context {R : Runtime}.

Lemma null_in_chunk (bs : list byte) (n : nat) :
  existsb (Byte.eqb x00) (firstn n bs) = true <->
  exists i, i < n /\ nth_error bs i = Some x00.
Proof.
  rewrite existsb_exists. split.
  - intros (b & Hin & Hb). apply Byte.byte_dec_bl in Hb. subst b.
    apply In_nth_error in Hin. destruct Hin as [i Hi].
    rewrite nth_error_firstn in Hi.
    destruct (Nat.ltb i n) eqn:E; [|discriminate].
    apply Nat.ltb_lt in E. now exists i.
  - intros (i & Hlt & Hi). exists x00. split; [|reflexivity].
    apply nth_error_In with i. rewrite nth_error_firstn.
    apply Nat.ltb_lt in Hlt. now rewrite Hlt.
Qed.

Lemma is_binary_iff (data : file_data) :
  Contextro._is_binary data = true <->
  data = None \/
  exists bs i, data = Some bs /\ i < 1024 /\ nth_error bs i = Some x00.
Proof.
  unfold Contextro._is_binary, read_bytes. destruct data as [bs|].
  - rewrite null_in_chunk. split.
    + intros (i & Hlt & Hi). right. now exists bs, i.
    + intros [H | (bs' & i & [= <-] & Hlt & Hi)]; [discriminate|]. now exists i.
  - split; [now left|reflexivity].
Qed.

(** C5. The classifier answers binary exactly when the file cannot be
    opened or read, or a null byte stands at one of the first 1024 positions
    of its bytes. The body of the loop leaves the artifact and the console
    as they are for a file classified binary, and every separator of a run
    belongs to a file the walk reached that was classified not binary. *)
Theorem binary_files_skipped :
  (forall data : file_data,
      Contextro._is_binary data = true <->
      data = None \/
      exists bs i, data = Some bs /\ i < 1024 /\ nth_error bs i = Some x00)
  /\ (forall (self : Contextro.t) (rel : path) (f : string * file_data)
             (st : state),
         Contextro._is_binary (snd f) = true ->
         Contextro.file_body self (Contextro.root_dir self ++ rel) f st
         = (st, Ok tt))
  /\ (forall (self : Contextro.t) (timestamp : string) (fs : tree) (p : path),
         In (Separator p)
            (out (fst (Contextro.build_context self timestamp fs initial))) ->
         exists dir f,
           visits self
             (Contextro.root_dir self
              ++ [("contextro_context_" ++ timestamp ++ ".txt")%string])
             [] fs dir f
           /\ p = dir ++ [fst f]
           /\ Contextro._is_binary (snd f) = false).
Proof.
  split; [exact is_binary_iff|]. split.
  - intros self rel f st Hb. rewrite file_body_spec.
    unfold file_writes, file_prints. rewrite Hb.
    destruct (Contextro._should_ignore _ _ _) as [[|]|]; now rewrite extend_nil.
  - intros self timestamp fs p Hin. rewrite build_context_spec in Hin.
    cbn [fst out extend initial app] in Hin.
    apply in_collect in Hin. destruct Hin as (dir & f & Hvis & Hw).
    exists dir, f. split; [assumption|].
    unfold file_writes in Hw.
    destruct (Contextro._should_ignore _ _ _) as [[|]|]; try now destruct Hw.
    destruct (Contextro._is_binary (snd f)); [now destruct Hw|].
    split; [|reflexivity].
    destruct (encodes _); [|now destruct Hw].
    destruct (read_text (snd f)); cbn in Hw;
      intuition (try discriminate; congruence).
Qed.

End Binary.

Lemma binary_files_skipped_null_byte :
  let self := {| Contextro.root_dir := Sample.root;
                 Contextro.ignore_file := Sample.root ++ [".contextignore"];
                 Contextro.ignore_patterns :=
                   ["sub/"; "contextro_context_*.txt"] |} in
  Contextro._is_binary (Some [x62; x00; x63]) = true
  /\ Contextro.file_body self (Contextro.root_dir self ++ [])
       ("b.bin", Some [x62; x00; x63]) initial = (initial, Ok tt)
  /\ exists dir f,
       visits self
         (Contextro.root_dir self
          ++ [("contextro_context_" ++ Sample.timestamp ++ ".txt")%string])
         [] Sample.scenario dir f
       /\ ["a.txt"] = dir ++ [fst f]
       /\ Contextro._is_binary (snd f) = false.
Proof.
  intros self.
  destruct (@binary_files_skipped posix) as (Hiff & Hbody & Hrun).
  assert (Hbin : Contextro._is_binary (Some [x62; x00; x63]) = true).
  { apply Hiff. right. exists [x62; x00; x63], 1. repeat split. lia. }
  split; [exact Hbin|]. split.
  - apply (Hbody self [] ("b.bin", Some [x62; x00; x63]) initial). exact Hbin.
  - apply (Hrun self Sample.timestamp Sample.scenario ["a.txt"]).
    vm_compute. now left.
Defined.

(** ** The glob matcher on plain names and below any directory *)

Section Glob.

Lemma list_ascii_of_string_app (s t : string) :
  list_ascii_of_string (s ++ t) = list_ascii_of_string s ++ list_ascii_of_string t.
Proof. induction s as [|c s IH]; simpl; [reflexivity|]. now rewrite IH. Qed.

Lemma matches_star (ts : list Fnmatch.token) (s : list ascii) :
  Fnmatch.matches (Fnmatch.Star :: ts) s =
  Fnmatch.matches ts s
  || match s with
     | [] => false
     | _ :: s' => Fnmatch.matches (Fnmatch.Star :: ts) s'
     end.
Proof. now destruct s. Qed.

Lemma matches_star_skip (ts : list Fnmatch.token) (pre s : list ascii) :
  Fnmatch.matches ts s = true ->
  Fnmatch.matches (Fnmatch.Star :: ts) (pre ++ s) = true.
Proof.
  intros H. induction pre as [|c pre IH]; simpl app; rewrite matches_star.
  - now rewrite H.
  - rewrite IH. apply orb_true_r.
Qed.

(** A name that matches a pattern matches [**/] and the pattern below any
    directory. *)
Lemma fnmatch_below (dir name pat : string) :
  @fnmatch posix name pat = true ->
  @fnmatch posix (dir ++ "/" ++ name) (String "*" (String "*" (String "/" pat)))
  = true.
Proof.
  cbn [fnmatch posix]. unfold Fnmatch.fnmatch. intros H.
  rewrite !list_ascii_of_string_app.
  change (list_ascii_of_string "/") with ["/"]%char.
  cbn [app list_ascii_of_string Fnmatch.translate].
  change (Ascii.eqb "*" "*") with true.
  change (Ascii.eqb "/" "*") with false.
  change (Ascii.eqb "/" "?") with false.
  change (Ascii.eqb "/" "[") with false.
  cbv iota.
  apply matches_star_skip. rewrite matches_star.
  cbn [Fnmatch.matches Fnmatch.accepts].
  change (Ascii.eqb "/" "/") with true. cbn [andb]. now rewrite H.
Qed.

Lemma translate_literal (l : list ascii) :
  forallb literal_char l = true ->
  Fnmatch.translate l 0 = map Fnmatch.Lit l.
Proof.
  induction l as [|c l IH]; simpl; [reflexivity|].
  intros H. apply andb_true_iff in H. destruct H as [Hc Hl].
  unfold literal_char in Hc. apply negb_true_iff in Hc.
  apply orb_false_iff in Hc. destruct Hc as [Hc H3].
  apply orb_false_iff in Hc. destruct Hc as [H1 H2].
  rewrite H1, H2, H3. now rewrite IH.
Qed.

Lemma matches_literal (l : list ascii) :
  Fnmatch.matches (map Fnmatch.Lit l) l = true.
Proof.
  induction l as [|c l IH]; simpl; [reflexivity|].
  now rewrite Ascii.eqb_refl, IH.
Qed.

(** A plain name followed by a slash matches itself. *)
Lemma fnmatch_literal_slash (name : string) :
  literal name = true ->
  @fnmatch posix (name ++ "/") (name ++ "/") = true.
Proof.
  cbn [fnmatch posix]. unfold Fnmatch.fnmatch, literal. intros H.
  rewrite translate_literal; [apply matches_literal|].
  rewrite list_ascii_of_string_app, forallb_app, H. reflexivity.
Qed.

Lemma append_assoc (s t u : string) : ((s ++ t) ++ u = s ++ t ++ u)%string.
Proof. induction s as [|c s IH]; simpl; [reflexivity|]. now rewrite IH. Qed.

Lemma join_parts_cons (x y : string) (l : path) :
  join_parts (x :: y :: l) = (x ++ "/" ++ join_parts (y :: l))%string.
Proof. reflexivity. Qed.

Lemma str_path_snoc (parent : path) (name : string) :
  str_path (parent ++ [name]) =
  match parent with
  | [] => name
  | _ => (join_parts parent ++ "/" ++ name)%string
  end.
Proof.
  destruct parent as [|x parent]; [reflexivity|].
  unfold str_path. simpl app. revert x.
  induction parent as [|y parent IH]; intros x; [reflexivity|].
  simpl app. rewrite !join_parts_cons. simpl app in IH. rewrite IH.
  now rewrite !append_assoc.
Qed.

Lemma matches_literal_prefix (l : list ascii) (ts : list Fnmatch.token)
    (s : list ascii) :
  Fnmatch.matches (map Fnmatch.Lit l ++ ts) (l ++ s) = Fnmatch.matches ts s.
Proof.
  induction l as [|c l IH]; [reflexivity|].
  simpl. now rewrite Ascii.eqb_refl, IH.
Qed.

Lemma translate_literal_app (l1 l2 : list ascii) :
  forallb literal_char l1 = true ->
  Fnmatch.translate (l1 ++ l2) 0 = map Fnmatch.Lit l1 ++ Fnmatch.translate l2 0.
Proof.
  induction l1 as [|c l1 IH]; simpl; [reflexivity|].
  intros H. apply andb_true_iff in H. destruct H as [Hc Hl].
  unfold literal_char in Hc. apply negb_true_iff in Hc.
  apply orb_false_iff in Hc. destruct Hc as [Hc H3].
  apply orb_false_iff in Hc. destruct Hc as [H1 H2].
  rewrite H1, H2, H3. now rewrite IH.
Qed.

(** A pattern without a set of characters matches itself: a [*] and a [?]
    match the character they are. *)
Lemma matches_self (l : list ascii) :
  forallb (fun c => negb (Ascii.eqb c "[")) l = true ->
  Fnmatch.matches (Fnmatch.translate l 0) l = true.
Proof.
  induction l as [|c l IH]; [reflexivity|].
  cbn [forallb]. intros H. apply andb_true_iff in H. destruct H as [Hc Hl].
  apply negb_true_iff in Hc. specialize (IH Hl).
  cbn [Fnmatch.translate]. rewrite Hc.
  destruct (Ascii.eqb c "*"); [|destruct (Ascii.eqb c "?")].
  - rewrite matches_star. rewrite (matches_star _ l), IH. apply orb_true_r.
  - cbn [Fnmatch.matches Fnmatch.accepts andb]. exact IH.
  - cbn [Fnmatch.matches Fnmatch.accepts]. now rewrite Ascii.eqb_refl, IH.
Qed.

Lemma fnmatch_self (s : string) :
  no_bracket s = true -> @fnmatch posix s s = true.
Proof. cbn [fnmatch posix]. unfold Fnmatch.fnmatch. apply matches_self. Qed.

(** A [*] between two plain strings matches whatever stands between them. *)
Lemma fnmatch_star (pre mid suf : string) :
  literal pre = true -> literal suf = true ->
  @fnmatch posix (pre ++ mid ++ suf) (pre ++ String "*" suf) = true.
Proof.
  cbn [fnmatch posix]. unfold Fnmatch.fnmatch, literal. intros Hpre Hsuf.
  rewrite !list_ascii_of_string_app, (translate_literal_app _ _ Hpre).
  cbn [list_ascii_of_string Fnmatch.translate].
  change (Ascii.eqb "*" "*") with true. cbv iota.
  rewrite (translate_literal _ Hsuf), matches_literal_prefix.
  apply matches_star_skip. apply matches_literal.
Qed.


End Glob.

(** The matcher of [posix] has the laws asked of a glob matcher. *)
Lemma posix_glob : GlobLaws posix.
Proof.
  split.
  - exact fnmatch_self.
  - intros dir name pat H.
    change (@fnmatch posix (dir ++ "/" ++ name)
              (String "*" (String "*" (String "/" pat))) = true).
    now apply fnmatch_below.
  - intros pre mid suf Hpre Hsuf.
    change (@fnmatch posix (pre ++ mid ++ suf) (pre ++ String "*" suf) = true).
    now apply fnmatch_star.
Qed.


(** ** The built-in pattern *)

Lemma init_patterns {R : Runtime} (fs : tree) (root ignore_file : path)
    (self : Contextro.t) :
  Contextro.__init__ fs root ignore_file = Ok self ->
  Contextro.root_dir self = root
  /\ exists user,
       Contextro._load_ignore_patterns fs ignore_file = Ok user
       /\ Contextro.ignore_patterns self = user ++ ["contextro_context_*.txt"].
Proof.
  unfold Contextro.__init__.
  destruct (Contextro._load_ignore_patterns fs ignore_file) as [user|e];
    [|discriminate].
  intros [= <-]. split; [reflexivity|]. now exists user.
Qed.

Section Builtin.
Context {R : Runtime} {L : GlobLaws R}.

(** A name that matches the built-in pattern makes the pattern produce a
    match, at the root through the pattern itself and below a directory
    through its variation [**/]. *)
Lemma builtin_pattern_matches (parent : path) (name rws : string) :
  fnmatch name "contextro_context_*.txt" = true ->
  produces_match (str_path (parent ++ [name])) rws "contextro_context_*.txt" true.
Proof.
  intros Hname.
  apply match_variation
    with (var := match parent with
                 | [] => "contextro_context_*.txt"
                 | _ => "**/contextro_context_*.txt"
                 end).
  - reflexivity.
  - destruct parent; [now left|right; now left].
  - change (endswith "contextro_context_*.txt" "/") with false. cbv iota.
    rewrite str_path_snoc.
    destruct parent as [|d parent]; [exact Hname|].
    exact (glob_below (join_parts (d :: parent)) name
             "contextro_context_*.txt" Hname).
Qed.

(** C3, as the code has it. The built-in pattern comes after the patterns of
    the user and the first match decides: for a glob matcher with the laws of
    [GlobLaws], a path whose name matches [contextro_context_*.txt] is
    ignored exactly when every negation pattern of the ignore file that
    matches its relative path is listed after a pattern that ignores the
    path; in particular when no negation pattern matches it. *)
Theorem builtin_pattern_ignores_unless_negated (fs : tree)
    (root ignore_file parent : path) (self : Contextro.t) (name : string)
    (isdir : bool) :
  let rel_path := str_path (parent ++ [name]) in
  let rel_path_with_slash :=
    if isdir then (rel_path ++ "/")%string else rel_path in
  Contextro.__init__ fs root ignore_file = Ok self ->
  fnmatch name "contextro_context_*.txt" = true ->
  (Contextro._should_ignore self (root ++ parent ++ [name]) isdir = Ok true
   <->
   forall pre q post,
     Contextro.ignore_patterns self = pre ++ q :: post ->
     startswith q "!" = true ->
     fnmatch rel_path (from1 q) = true ->
     exists e, In e pre /\ produces_match rel_path rel_path_with_slash e true).
Proof.
  intros rp rws Hinit Hname.
  destruct (init_patterns _ _ _ Hinit) as (Hroot & user & _ & Hpats).
  rewrite <- Hroot, should_ignore_under. fold rp. fold rws. split.
  - intros H pre q post Hsplit Hn Hm. rewrite Hsplit in H.
    destruct (for_return (pre ++ q :: post) (Contextro.pattern_body rp rws))
      as [[|]|] eqn:E; try discriminate.
    now apply (kept_negation_after_ignore _ _ _ _ _ E).
  - intros H. rewrite Hpats, ignored_unless_kept; [reflexivity| |].
    + intros pre1 q post1 Huser.
      apply (H pre1 q (post1 ++ ["contextro_context_*.txt"])).
      now rewrite Hpats, Huser, <- app_assoc.
    + now apply builtin_pattern_matches.
Qed.

End Builtin.

(** An old artifact below a directory is ignored although [!contextro*]
    matches its path: the negation is listed after [*.txt], which has
    already ignored it. *)
Lemma builtin_pattern_ignores_nested :
  let self := {| Contextro.root_dir := Sample.root;
                 Contextro.ignore_file := Sample.root ++ [".contextignore"];
                 Contextro.ignore_patterns :=
                   ["*.txt"; "!old/contextro*"; "contextro_context_*.txt"] |} in
  Contextro.__init__ Sample.late_negation Sample.root [".contextignore"] = Ok self
  /\ Contextro._should_ignore self
       (Sample.root ++ ["old"; "contextro_context_20240101_000000.txt"]) false
     = Ok true.
Proof.
  intros self.
  assert (Hinit : Contextro.__init__ Sample.late_negation Sample.root
                    [".contextignore"] = Ok self)
    by (vm_compute; reflexivity).
  split; [exact Hinit|].
  apply (proj2 (@builtin_pattern_ignores_unless_negated posix posix_glob
                  Sample.late_negation Sample.root [".contextignore"] ["old"]
                  self "contextro_context_20240101_000000.txt" false Hinit
                  ltac:(vm_compute; reflexivity))).
  intros pre q post Hsplit Hn Hm.
  destruct pre as [|p1 [|p2 [|p3 pre]]]; cbn in Hsplit.
  - injection Hsplit as <- _. discriminate Hn.
  - injection Hsplit as <- <- _. exists "*.txt". split; [now left|].
    apply match_variation with "*.txt"; [reflexivity|now left|].
    vm_compute. reflexivity.
  - injection Hsplit as _ _ <- _. discriminate Hn.
  - injection Hsplit as _ _ _ Hnil. now destruct pre.
Defined.

(** C3, as stated, fails: an ignore file with the line [!*.txt] keeps the
    artifact of an earlier run, whose name matches the built-in pattern. *)
Lemma builtin_pattern_overridden :
  exists self,
    Contextro.__init__ Sample.negated_txt Sample.root [".contextignore"] = Ok self
    /\ fnmatch "contextro_context_20240101_000000.txt" "contextro_context_*.txt"
       = true
    /\ Contextro._should_ignore self
         (Sample.root ++ ["contextro_context_20240101_000000.txt"]) false
       = Ok false.
Proof.
  eexists. split; [vm_compute; reflexivity|]. split; vm_compute; reflexivity.
Qed.


(** ** The simpler variant against the richer one *)

Section Variants.
Context {R : Runtime}.

Lemma simple_body_complete (rp pattern : string) (b : bool) :
  produces_match_simple rp pattern b ->
  ContextBuilder.pattern_body rp pattern = Some b.
Proof.
  unfold ContextBuilder.pattern_body.
  intros [p Hn Hm | p Hn Hd Hm | p Hn Hd Hm]; rewrite Hn; try rewrite Hd;
    now rewrite Hm.
Qed.

Lemma simple_body_sound (rp pattern : string) (b : bool) :
  ContextBuilder.pattern_body rp pattern = Some b ->
  produces_match_simple rp pattern b.
Proof.
  unfold ContextBuilder.pattern_body.
  destruct (startswith pattern "!") eqn:Hn.
  - destruct (fnmatch rp (from1 pattern)) eqn:Hm; [|discriminate].
    intros [= <-]. now apply simple_negation.
  - destruct (endswith pattern "/") eqn:Hd.
    + destruct (fnmatch (rp ++ "/")%string pattern) eqn:Hm; [|discriminate].
      intros [= <-]. now apply simple_directory.
    + destruct (fnmatch rp pattern) eqn:Hm; [|discriminate].
      intros [= <-]. now apply simple_regular.
Qed.

Lemma simple_should_ignore_under (self : ContextBuilder.t) (rel : path) :
  ContextBuilder._should_ignore self (ContextBuilder.root_dir self ++ rel) =
  Ok (match for_return (ContextBuilder.ignore_patterns self)
              (ContextBuilder.pattern_body (str_path rel)) with
      | Some b => b
      | None => false
      end).
Proof.
  unfold ContextBuilder._should_ignore. rewrite relative_to_app.
  now destruct (for_return _ _).
Qed.

(** A pattern that ignores in the simpler variant ignores in the richer one,
    unless it is a directory-only pattern and the path is not a directory:
    the two variants then test different strings. *)
Lemma simple_ignore_is_richer_ignore (rp pattern : string) (isdir : bool) :
  produces_match_simple rp pattern true ->
  isdir = true \/ endswith pattern "/" = false ->
  produces_match rp (if isdir then (rp ++ "/")%string else rp) pattern true.
Proof.
  intros Hp Hside.
  inversion Hp as [ | p Hn Hd Hm | p Hn Hd Hm]; subst;
    apply match_variation with pattern; try assumption; try now left.
  - rewrite Hd. destruct Hside as [-> | Hside]; [assumption|congruence].
  - now rewrite Hd.
Qed.

(** The two variants test a negation pattern in the same way. *)
Lemma richer_keep_is_simple_keep (rp rws pattern : string) :
  produces_match rp rws pattern false ->
  produces_match_simple rp pattern false.
Proof.
  intros Hp. inversion Hp as [p Hn Hm | ]; subst. now apply simple_negation.
Qed.

(** C8, as the code has it. On the same root, pattern list and path: when
    the simpler variant returns ignore, a pattern decides it, the first that
    produces a match; and the richer variant returns ignore as well, unless
    that pattern is a directory-only one and the path is not a directory.
    When the simpler variant returns keep through a negation pattern, the
    richer variant returns keep as well, unless a pattern listed before the
    negation ignores the path in the richer variant, through a variation or
    as a directory-only pattern tested without the slash: the richer variant
    then returns ignore. *)
Theorem simple_refined_by_richer (root file file' path : path)
    (patterns : list string) (isdir : bool) :
  let simple := {| ContextBuilder.root_dir := root;
                   ContextBuilder.ignore_file := file;
                   ContextBuilder.ignore_patterns := patterns |} in
  let richer := {| Contextro.root_dir := root;
                   Contextro.ignore_file := file';
                   Contextro.ignore_patterns := patterns |} in
  (ContextBuilder._should_ignore simple path = Ok true ->
   exists (rel : Py.path) (pre post : list string) (pattern : string),
     path = root ++ rel
     /\ patterns = pre ++ pattern :: post
     /\ (forall q b, In q pre -> ~ produces_match_simple (str_path rel) q b)
     /\ produces_match_simple (str_path rel) pattern true)
  /\ (forall (rel : Py.path) (pre post : list string) (pattern : string),
         path = root ++ rel ->
         patterns = pre ++ pattern :: post ->
         (forall q b, In q pre -> ~ produces_match_simple (str_path rel) q b) ->
         produces_match_simple (str_path rel) pattern true ->
         isdir = true \/ endswith pattern "/" = false ->
         ContextBuilder._should_ignore simple path = Ok true
         /\ Contextro._should_ignore richer path isdir = Ok true)
  /\ (forall (rel : Py.path) (pre post : list string) (pattern : string),
         let rel_path := str_path rel in
         let rel_path_with_slash :=
           if isdir then (rel_path ++ "/")%string else rel_path in
         path = root ++ rel ->
         patterns = pre ++ pattern :: post ->
         (forall q b, In q pre -> ~ produces_match_simple rel_path q b) ->
         produces_match_simple rel_path pattern false ->
         ContextBuilder._should_ignore simple path = Ok false
         /\ (Contextro._should_ignore richer path isdir = Ok false
             <-> forall q, In q pre ->
                   ~ produces_match rel_path rel_path_with_slash q true)
         /\ (Contextro._should_ignore richer path isdir = Ok true
             <-> exists q, In q pre
                   /\ produces_match rel_path rel_path_with_slash q true)).
Proof.
  intros simple richer.
  assert (Hsimple : forall rel pre post pattern b,
             patterns = pre ++ pattern :: post ->
             (forall q b', In q pre -> ~ produces_match_simple (str_path rel) q b') ->
             produces_match_simple (str_path rel) pattern b ->
             ContextBuilder._should_ignore simple (root ++ rel) = Ok b).
  { intros rel pre post pattern b Hpats Hpre Hp.
    change root with (ContextBuilder.root_dir simple).
    rewrite simple_should_ignore_under.
    cbn [ContextBuilder.ignore_patterns simple]. rewrite Hpats.
    rewrite for_return_app_none.
    - simpl. now rewrite (simple_body_complete Hp).
    - intros q Hq.
      destruct (ContextBuilder.pattern_body (str_path rel) q) as [b'|] eqn:E;
        [|reflexivity].
      apply simple_body_sound in E. now destruct (Hpre q b' Hq). }
  split; [|split].
  - intros Hs. unfold ContextBuilder._should_ignore in Hs.
    cbn [ContextBuilder.root_dir ContextBuilder.ignore_patterns simple] in Hs.
    destruct (relative_to path root) as [rel|e] eqn:Hrel; [|discriminate].
    apply relative_to_Ok in Hrel.
    destruct (for_return patterns (ContextBuilder.pattern_body (str_path rel)))
      as [[|]|] eqn:E; try discriminate.
    apply for_return_some in E. destruct E as (pre & p & post & Hl & Hpre & Hp).
    exists rel, pre, post, p. repeat split; try assumption.
    + intros q b Hq Hm. apply simple_body_complete in Hm.
      rewrite (Hpre q Hq) in Hm. discriminate.
    + now apply simple_body_sound.
  - intros rel pre post pattern -> Hpats Hpre Hp Hside.
    split; [now apply Hsimple with pre post pattern|].
    change root with (Contextro.root_dir richer).
    rewrite should_ignore_under. cbn [Contextro.ignore_patterns richer].
    rewrite Hpats, ignored_unless_kept; [reflexivity| |].
    + intros pre1 q post1 -> Hn Hm. exfalso.
      apply (Hpre q false); [apply in_or_app; right; now left|].
      now apply simple_negation.
    + now apply simple_ignore_is_richer_ignore.
  - intros rel pre post pattern rp rws -> Hpats Hpre Hp.
    split; [now apply Hsimple with pre post pattern|].
    change root with (Contextro.root_dir richer).
    rewrite should_ignore_under. cbn [Contextro.ignore_patterns richer].
    fold rp. fold rws. rewrite Hpats.
    assert (Hneg : Contextro.pattern_body rp rws pattern = Some false).
    { inversion Hp as [p Hn Hm| |]; subst.
      exact (pattern_body_complete (match_negation rp rws _ Hn Hm)). }
    destruct (for_return pre (Contextro.pattern_body rp rws)) as [[|]|] eqn:E.
    + rewrite (for_return_app_some _ _ _ E).
      apply for_return_some in E. destruct E as (l1 & e & l2 & -> & _ & He).
      apply pattern_body_sound in He.
      assert (Hin : In e (l1 ++ e :: l2)) by (apply in_or_app; right; now left).
      split; split; try discriminate; try reflexivity.
      * intros H. now destruct (H e Hin).
      * intros _. now exists e.
    + exfalso. apply for_return_some in E.
      destruct E as (l1 & e & l2 & -> & _ & He).
      apply pattern_body_sound, richer_keep_is_simple_keep in He.
      apply (Hpre e false); [apply in_or_app; right; now left|assumption].
    + rewrite for_return_app_none by now apply for_return_none.
      simpl. rewrite Hneg.
      assert (Hnone : forall q, In q pre -> ~ produces_match rp rws q true).
      { intros q Hq Hm. apply pattern_body_complete in Hm.
        rewrite (proj1 (for_return_none _ _) E q Hq) in Hm. discriminate. }
      split; split; try discriminate; try reflexivity.
      * intros _. exact Hnone.
      * intros (q & Hq & Hm). now destruct (Hnone q Hq).
Qed.

End Variants.

(** With [node_modules/] before [*.log], the plain file [x.log] is ignored
    by both variants: the pattern that decides is not a directory-only one.
    And with [*.log] before [!keep.txt], both keep [keep.txt]. *)
Lemma simple_refined_by_richer_build_dir :
  Contextro._should_ignore
    {| Contextro.root_dir := Sample.root;
       Contextro.ignore_file := Sample.root ++ [".contextignore"];
       Contextro.ignore_patterns := ["node_modules/"; "*.log"] |}
    (Sample.root ++ ["x.log"]) false = Ok true
  /\ Contextro._should_ignore
       {| Contextro.root_dir := Sample.root;
          Contextro.ignore_file := Sample.root ++ [".contextignore"];
          Contextro.ignore_patterns := ["*.log"; "!keep.txt"; "*.txt"] |}
       (Sample.root ++ ["keep.txt"]) false = Ok false.
Proof.
  split.
  - refine (proj2 (proj1 (proj2 (@simple_refined_by_richer posix Sample.root
                                   (Sample.root ++ [".contextignore"])
                                   (Sample.root ++ [".contextignore"])
                                   (Sample.root ++ ["x.log"])
                                   ["node_modules/"; "*.log"] false))
                     ["x.log"] ["node_modules/"] [] "*.log"
                     eq_refl eq_refl _ _ (or_intror eq_refl))).
    + intros q b [<-|[]] Hm.
      inversion Hm as [p Hn _ | p Hn Hd Hf | p Hn Hd _]; subst; discriminate.
    + apply simple_regular; vm_compute; reflexivity.
  - refine (proj2 (proj1 (proj2 (proj2 (proj2
              (@simple_refined_by_richer posix Sample.root
                 (Sample.root ++ [".contextignore"])
                 (Sample.root ++ [".contextignore"])
                 (Sample.root ++ ["keep.txt"])
                 ["*.log"; "!keep.txt"; "*.txt"] false))
              ["keep.txt"] ["*.log"] ["*.txt"] "!keep.txt"
              eq_refl eq_refl _ _))) _).
    + intros q b [<-|[]] Hm.
      inversion Hm as [p Hn _ | p Hn Hd _ | p Hn Hd Hf]; subst; discriminate.
    + apply simple_negation; vm_compute; reflexivity.
    + intros q [<-|[]] Hm.
      inversion Hm as [|p var Hn Hin Hf]; subst.
      destruct Hin as [<-|[<-|[<-|[]]]]; vm_compute in Hf; discriminate.
Defined.

(** C8, as stated, fails twice. For the plain file [build] and the pattern
    [build/] the simpler variant, which adds the slash to every path, returns
    ignore and the richer one keep. For [sub/x.log] with [x.log] before
    [!sub/*] the simpler variant returns keep through the negation and the
    richer one ignore, through [**/x.log]. *)
Lemma simple_not_refined_by_richer :
  (ContextBuilder._should_ignore
     {| ContextBuilder.root_dir := Sample.root;
        ContextBuilder.ignore_file := Sample.root ++ [".contextignore"];
        ContextBuilder.ignore_patterns := ["build/"] |}
     (Sample.root ++ ["build"]) = Ok true
   /\ Contextro._should_ignore
        {| Contextro.root_dir := Sample.root;
           Contextro.ignore_file := Sample.root ++ [".contextignore"];
           Contextro.ignore_patterns := ["build/"] |}
        (Sample.root ++ ["build"]) false = Ok false)
  /\ (produces_match_simple (str_path ["sub"; "x.log"]) "!sub/*" false
      /\ ContextBuilder._should_ignore
           {| ContextBuilder.root_dir := Sample.root;
              ContextBuilder.ignore_file := Sample.root ++ [".contextignore"];
              ContextBuilder.ignore_patterns := ["x.log"; "!sub/*"] |}
           (Sample.root ++ ["sub"; "x.log"]) = Ok false
      /\ Contextro._should_ignore
           {| Contextro.root_dir := Sample.root;
              Contextro.ignore_file := Sample.root ++ [".contextignore"];
              Contextro.ignore_patterns := ["x.log"; "!sub/*"] |}
           (Sample.root ++ ["sub"; "x.log"]) false = Ok true).
Proof.
  split; [split; vm_compute; reflexivity|].
  split; [|split; vm_compute; reflexivity].
  apply simple_negation; vm_compute; reflexivity.
Qed.


(** ** Directory-only patterns and pruning *)

Lemma endswith_slash (s : string) : endswith (s ++ "/") "/" = true.
Proof.
  induction s as [|c s IH]; [reflexivity|].
  simpl. destruct (s ++ "/")%string eqn:E; [|exact IH].
  destruct s; discriminate.
Qed.

Lemma startswith_slash (s : string) :
  startswith s "!" = false -> startswith (s ++ "/") "!" = false.
Proof.
  destruct s as [|c s]; [reflexivity|].
  unfold startswith. cbn [String.append String.prefix].
  destruct (ascii_dec "!" c); [|reflexivity].
  destruct s; intros H; discriminate H.
Qed.

Lemma separator_origin {R : Runtime} (self : Contextro.t) (dir p : path)
    (f : string * file_data) :
  In (Separator p) (file_writes self dir f) -> p = dir ++ [fst f].
Proof.
  unfold file_writes.
  destruct (Contextro._should_ignore _ _ _) as [[|]|]; try now intros [].
  destruct (Contextro._is_binary (snd f)); [now intros []|].
  destruct (encodes _); [|now intros []].
  destruct (read_text (snd f)); cbn; intuition (try discriminate; congruence).
Qed.

Section Pruning.
Context {R : Runtime} {L : GlobLaws R}.

(** A directory-only pattern matches the directories of its name: at the
    root through the pattern itself, below a directory through its
    variation [**/]. *)
Lemma directory_pattern_matches (parent : path) (foo : string) :
  no_bracket foo = true ->
  startswith foo "!" = false ->
  produces_match (str_path (parent ++ [foo]))
    (str_path (parent ++ [foo]) ++ "/") (foo ++ "/") true.
Proof.
  intros Hfoo Hbang.
  assert (Hself : fnmatch (foo ++ "/") (foo ++ "/") = true).
  { apply glob_self. unfold no_bracket in *.
    now rewrite list_ascii_of_string_app, forallb_app, Hfoo. }
  apply match_variation
    with (var := match parent with
                 | [] => (foo ++ "/")%string
                 | _ => ("**/" ++ foo ++ "/")%string
                 end).
  - now apply startswith_slash.
  - destruct parent; [now left|right; now left].
  - rewrite endswith_slash, str_path_snoc.
    destruct parent as [|d parent]; [exact Hself|].
    rewrite !append_assoc.
    exact (glob_below (join_parts (d :: parent)) (foo ++ "/") (foo ++ "/") Hself).
Qed.

(** C4, as the code has it. For a glob matcher with the laws of [GlobLaws]:
    take a directory-only pattern [foo/] of the ignore file, [foo] a name
    without an opening bracket and without the marker of a negation at its
    head, and a directory named [foo] under the root such that every
    negation pattern listed before [foo/] that matches its relative path
    stands after a pattern that ignores it. Then the match operation returns
    ignore for the directory, no file the walk reaches lies in it or beneath
    it, every write of the run comes from a file outside it, and no separator
    of the run names a path beneath it. *)
Theorem directory_pattern_prunes (self : Contextro.t) (timestamp : string)
    (fs : tree) (parent : path) (foo : string) (pre post : list string) :
  let output_file :=
    Contextro.root_dir self
    ++ [("contextro_context_" ++ timestamp ++ ".txt")%string] in
  let final := fst (Contextro.build_context self timestamp fs initial) in
  let rel_path := str_path (parent ++ [foo]) in
  no_bracket foo = true ->
  startswith foo "!" = false ->
  Contextro.ignore_patterns self = pre ++ (foo ++ "/")%string :: post ->
  (forall pre1 q post1,
      pre = pre1 ++ q :: post1 ->
      startswith q "!" = true ->
      fnmatch rel_path (from1 q) = true ->
      exists e, In e pre1
                /\ produces_match rel_path (rel_path ++ "/") e true) ->
  Contextro._should_ignore self (Contextro.root_dir self ++ parent ++ [foo]) true
  = Ok true
  /\ (forall dir f below,
         visits self output_file [] fs dir f -> dir <> (parent ++ [foo]) ++ below)
  /\ (forall w, In w (out final) ->
         exists dir f,
           visits self output_file [] fs dir f
           /\ In w (file_writes self dir f)
           /\ forall below, dir <> (parent ++ [foo]) ++ below)
  /\ (forall below, below <> [] ->
         ~ In (Separator ((parent ++ [foo]) ++ below)) (out final)).
Proof.
  intros output_file final rel_path Hfoo Hbang Hpats Hneg.
  assert (Hign : Contextro._should_ignore self
                   (Contextro.root_dir self ++ parent ++ [foo]) true = Ok true).
  { rewrite should_ignore_under, Hpats.
    rewrite ignored_unless_kept; [reflexivity|assumption|].
    now apply directory_pattern_matches. }
  assert (Hout : forall dir f below,
             visits self output_file [] fs dir f ->
             dir <> (parent ++ [foo]) ++ below).
  { intros dir f below Hvis ->.
    destruct (visits_kept Hvis) as (ds & Hds & Hkept). simpl in Hds. subst ds.
    specialize (Hkept (parent ++ [foo]) below eq_refl).
    simpl in Hkept. rewrite Hign in Hkept.
    assert (Ok true = Ok false) by (apply Hkept; now destruct parent).
    discriminate. }
  assert (Hw : forall w, In w (out final) ->
             exists dir f, visits self output_file [] fs dir f
                           /\ In w (file_writes self dir f)
                           /\ forall below, dir <> (parent ++ [foo]) ++ below).
  { intros w Hin. unfold final in Hin. rewrite build_context_spec in Hin.
    cbn [fst out extend initial app] in Hin. apply in_collect in Hin.
    destruct Hin as (dir & f & Hvis & Hin). exists dir, f.
    repeat split; try assumption. intros below. now apply Hout with f. }
  repeat split; try assumption.
  intros below Hne Hin. destruct (Hw _ Hin) as (dir & f & Hvis & Hin' & Hdir).
  apply separator_origin in Hin'.
  destruct (exists_last Hne) as (below' & x & ->).
  rewrite app_assoc in Hin'. apply app_inj_tail in Hin'.
  destruct Hin' as [Hin' _]. now apply (Hdir below').
Qed.

End Pruning.

(** A [*] and a [?] in the name of a directory do no harm: the pattern
    [a*b?/] prunes the directory named [a*b?]. *)
Lemma directory_pattern_prunes_scenario :
  let self := {| Contextro.root_dir := Sample.root;
                 Contextro.ignore_file := Sample.root ++ [".contextignore"];
                 Contextro.ignore_patterns :=
                   ["a*b?/"; "contextro_context_*.txt"] |} in
  Contextro.__init__ Sample.star_dir Sample.root [".contextignore"] = Ok self
  /\ Contextro._should_ignore self (Sample.root ++ ["a*b?"]) true = Ok true
  /\ ~ In (Separator ["a*b?"; "x.txt"])
          (out (fst (Contextro.build_context self Sample.timestamp
                       Sample.star_dir initial))).
Proof.
  intros self. split; [vm_compute; reflexivity|].
  destruct (@directory_pattern_prunes posix posix_glob self Sample.timestamp
              Sample.star_dir [] "a*b?" [] ["contextro_context_*.txt"]
              eq_refl eq_refl eq_refl)
    as (Hign & _ & _ & Hsep).
  - intros pre1 q post1 Hnil. now destruct pre1.
  - split; [exact Hign|]. exact (Hsep ["x.txt"] ltac:(discriminate)).
Defined.

(** C4, as stated, fails. With [!build] before [build/] the directory
    [build] is kept and its file gets a record; the pattern [[ab]/] does not
    match the directory named [[ab]], which is kept as well; and the line
    [!x/] is a negation pattern, which ignores nothing, so the directory
    named [!x] is kept too. *)
Lemma directory_pattern_overridden :
  (exists self,
      Contextro.__init__ Sample.negated_build Sample.root [".contextignore"]
      = Ok self
      /\ In "build/" (Contextro.ignore_patterns self)
      /\ Contextro._should_ignore self (Sample.root ++ ["build"]) true = Ok false
      /\ In (Separator ["build"; "x.txt"])
            (out (fst (Contextro.build_context self Sample.timestamp
                         Sample.negated_build initial))))
  /\ (exists self,
         Contextro.__init__ Sample.bracket_dir Sample.root [".contextignore"]
         = Ok self
         /\ In "[ab]/" (Contextro.ignore_patterns self)
         /\ Contextro._should_ignore self (Sample.root ++ ["[ab]"]) true
            = Ok false
         /\ In (Separator ["[ab]"; "x.txt"])
               (out (fst (Contextro.build_context self Sample.timestamp
                            Sample.bracket_dir initial))))
  /\ (exists self,
         Contextro.__init__ Sample.bang_dir Sample.root [".contextignore"]
         = Ok self
         /\ In "!x/" (Contextro.ignore_patterns self)
         /\ Contextro._should_ignore self (Sample.root ++ ["!x"]) true
            = Ok false
         /\ In (Separator ["!x"; "x.txt"])
               (out (fst (Contextro.build_context self Sample.timestamp
                            Sample.bang_dir initial)))).
Proof.
  split; [|split].
  - eexists. split; [vm_compute; reflexivity|]. split; [right; now left|].
    split; [vm_compute; reflexivity|]. vm_compute. now left.
  - eexists. split; [vm_compute; reflexivity|]. split; [now left|].
    split; [vm_compute; reflexivity|]. vm_compute. now left.
  - eexists. split; [vm_compute; reflexivity|]. split; [now left|].
    split; [vm_compute; reflexivity|]. vm_compute. now left.
Qed.


(** ** Failures on a single file *)

Section Failures.
Context {R : Runtime}.


End Failures.



(** The separator of a file is written before its text is read: a file that
    does not decode leaves its separator in the artifact. *)
Example undecodable_file_run :
  let self := {| Contextro.root_dir := Sample.root;
                 Contextro.ignore_file := Sample.root ++ [".contextignore"];
                 Contextro.ignore_patterns := ["contextro_context_*.txt"] |} in
  fst (Contextro.build_context self Sample.timestamp Sample.undecodable initial)
  = {| out := [Separator ["bad.txt"]; Separator ["a.txt"]; Contents "hello"];
       console := [ErrorProcessing (Sample.root ++ ["bad.txt"])
                     UnicodeDecodeError] |}.
Proof. vm_compute. reflexivity. Qed.

(** A file whose name has no encoding leaves nothing in the artifact: the
    write of its separator raises, and the handler prints the error. *)
Example unencodable_name_run :
  let self := {| Contextro.root_dir := Sample.root;
                 Contextro.ignore_file := Sample.root ++ [".contextignore"];
                 Contextro.ignore_patterns := ["contextro_context_*.txt"] |} in
  fst (Contextro.build_context self Sample.timestamp Sample.unencodable initial)
  = {| out := [Separator ["a.txt"]; Contents "hello"];
       console := [ErrorProcessing (Sample.root ++ [Sample.odd_name])
                     UnicodeEncodeError] |}.
Proof. vm_compute. reflexivity. Qed.


(** ** The ignore file in the walk *)

(** Whatever name the ignore file was given, a file named [.contextignore]
    never gets a record. *)
Lemma contextignore_never_recorded {R : Runtime} (self : Contextro.t)
    (timestamp : string) (fs : tree) (dir : path) :
  ~ In (Separator (dir ++ [".contextignore"]))
       (out (fst (Contextro.build_context self timestamp fs initial))).
Proof.
  rewrite build_context_spec. cbn [fst out extend initial app].
  intros Hin. apply in_collect in Hin. destruct Hin as (dir' & f & Hvis & Hin).
  apply separator_origin in Hin. apply app_inj_tail in Hin.
  destruct Hin as [_ Hname]. apply visits_filter in Hvis.
  rewrite <- Hname in Hvis. discriminate Hvis.
Qed.

(** C10. The filter on the plain files compares the names with the
    constant [.contextignore], not with the name given to the constructor:
    with [--ignore-file my.ignore], the ignore file [my.ignore] is read for
    its patterns and then gets a record in the artifact. *)
Theorem configured_ignore_file_not_excluded :
  exists self,
    Contextro.__init__ Sample.custom_ignore Sample.root ["my.ignore"] = Ok self
    /\ Contextro.ignore_file self = Sample.root ++ ["my.ignore"]
    /\ Contextro.ignore_patterns self = ["*.log"; "contextro_context_*.txt"]
    /\ Contextro.keep_file
         (Sample.root ++ ["contextro_context_20240102_030405.txt"]) "my.ignore"
       = true
    /\ Contextro.main Sample.custom_ignore Sample.root ["my.ignore"]
         Sample.timestamp
       = ({| out := [Separator ["my.ignore"];
                     Contents ("*.log" ++ Sample.nl);
                     Separator ["a.txt"]; Contents "hello"];
             console := [] |}, 0).
Proof.
  eexists. split; [vm_compute; reflexivity|].
  repeat split; vm_compute; reflexivity.
Qed.

(** ** More on the two matchers *)

Section Verdicts.
Context {R : Runtime}.

(** A path under the root is ignored by the richer variant exactly when some
    pattern without the marker matches it, itself or through a variation,
    and no negation pattern listed before that one matches it. *)
Theorem ignored_iff (self : Contextro.t) (rel : path) (isdir : bool) :
  let rel_path := str_path rel in
  let rel_path_with_slash :=
    if isdir then (rel_path ++ "/")%string else rel_path in
  Contextro._should_ignore self (Contextro.root_dir self ++ rel) isdir = Ok true
  <->
  exists pre pattern post,
    Contextro.ignore_patterns self = pre ++ pattern :: post
    /\ produces_match rel_path rel_path_with_slash pattern true
    /\ forall q, In q pre -> startswith q "!" = true ->
                 fnmatch rel_path (from1 q) = false.
Proof.
  intros rp rws. rewrite should_ignore_under. fold rp. fold rws. split.
  - intros H.
    destruct (for_return (Contextro.ignore_patterns self)
                (Contextro.pattern_body rp rws)) as [b|] eqn:E;
      [|discriminate].
    injection H as ->. apply for_return_some in E.
    destruct E as (pre & p & post & Hl & Hpre & Hp).
    exists pre, p, post. split; [assumption|].
    split; [now apply pattern_body_sound|].
    intros q Hq Hn. specialize (Hpre q Hq).
    destruct (fnmatch rp (from1 q)) eqn:Hm; [|reflexivity].
    rewrite (pattern_body_complete (match_negation rp rws q Hn Hm)) in Hpre.
    discriminate.
  - intros (pre & p & post & Hl & Hp & Hpre).
    rewrite Hl, ignored_unless_negated; auto.
Qed.

(** The same for the simpler variant, which knows no variation. *)
Theorem simple_ignored_iff (self : ContextBuilder.t) (rel : path) :
  let rel_path := str_path rel in
  ContextBuilder._should_ignore self (ContextBuilder.root_dir self ++ rel)
  = Ok true
  <->
  exists pre pattern post,
    ContextBuilder.ignore_patterns self = pre ++ pattern :: post
    /\ produces_match_simple rel_path pattern true
    /\ forall q, In q pre -> startswith q "!" = true ->
                 fnmatch rel_path (from1 q) = false.
Proof.
  intros rp. rewrite simple_should_ignore_under. fold rp. split.
  - intros H.
    destruct (for_return (ContextBuilder.ignore_patterns self)
                (ContextBuilder.pattern_body rp)) as [b|] eqn:E;
      [|discriminate].
    injection H as ->. apply for_return_some in E.
    destruct E as (pre & p & post & Hl & Hpre & Hp).
    exists pre, p, post. split; [assumption|].
    split; [now apply simple_body_sound|].
    intros q Hq Hn. specialize (Hpre q Hq).
    destruct (fnmatch rp (from1 q)) eqn:Hm; [|reflexivity].
    rewrite (simple_body_complete (simple_negation rp q Hn Hm)) in Hpre.
    discriminate.
  - intros (pre & p & post & Hl & Hp & Hpre). rewrite Hl.
    clear Hl. induction pre as [|q pre IH]; simpl.
    + now rewrite (simple_body_complete Hp).
    + destruct (ContextBuilder.pattern_body rp q) as [b|] eqn:E.
      * apply simple_body_sound in E.
        inversion E as [p' Hn Hm | |]; subst; try reflexivity.
        rewrite (Hpre q (or_introl eq_refl) Hn) in Hm. discriminate.
      * apply IH. intros q' Hq'. apply Hpre. now right.
Qed.

Lemma for_return_snoc_dead {A : Type} (f : A -> option bool) (l : list A) (x : A) :
  f x = None \/ f x = Some false ->
  match for_return (l ++ [x]) f with Some b => b | None => false end
  = match for_return l f with Some b => b | None => false end.
Proof.
  intros Hx. induction l as [|y l IH]; simpl.
  - now destruct Hx as [-> | ->].
  - now destruct (f y).
Qed.

(** A negation pattern at the end of the list changes no verdict: a
    negation can only protect a path from the patterns listed after it. *)
Theorem trailing_negation_is_dead (root file : path) (patterns : list string)
    (negation : string) (p : path) (isdir : bool) :
  startswith negation "!" = true ->
  Contextro._should_ignore
    {| Contextro.root_dir := root; Contextro.ignore_file := file;
       Contextro.ignore_patterns := patterns ++ [negation] |} p isdir
  = Contextro._should_ignore
      {| Contextro.root_dir := root; Contextro.ignore_file := file;
         Contextro.ignore_patterns := patterns |} p isdir
  /\ ContextBuilder._should_ignore
       {| ContextBuilder.root_dir := root; ContextBuilder.ignore_file := file;
          ContextBuilder.ignore_patterns := patterns ++ [negation] |} p
     = ContextBuilder._should_ignore
         {| ContextBuilder.root_dir := root; ContextBuilder.ignore_file := file;
            ContextBuilder.ignore_patterns := patterns |} p.
Proof.
  intros Hn. unfold Contextro._should_ignore, ContextBuilder._should_ignore.
  cbn [Contextro.root_dir Contextro.ignore_patterns ContextBuilder.root_dir
       ContextBuilder.ignore_patterns].
  destruct (relative_to p root) as [rel|e]; [|now split].
  assert (Hshape : forall x : option bool,
             match x with Some b => Ok b | None => Ok false end
             = Ok (match x with Some b => b | None => false end)).
  { now intros [b|]. }
  split.
  - set (body := Contextro.pattern_body _ _).
    assert (H : body negation = None \/ body negation = Some false).
    { unfold body, Contextro.pattern_body. rewrite Hn. simpl.
      destruct (fnmatch _ _); auto. }
    pose proof (for_return_snoc_dead body patterns negation H) as E.
    rewrite !Hshape. now f_equal.
  - set (body := ContextBuilder.pattern_body _).
    assert (H : body negation = None \/ body negation = Some false).
    { unfold body, ContextBuilder.pattern_body. rewrite Hn.
      destruct (fnmatch _ _); auto. }
    pose proof (for_return_snoc_dead body patterns negation H) as E.
    rewrite !Hshape. now f_equal.
Qed.

End Verdicts.

Lemma trailing_negation_is_dead_keep_txt :
  Contextro._should_ignore
    {| Contextro.root_dir := Sample.root;
       Contextro.ignore_file := Sample.root ++ [".contextignore"];
       Contextro.ignore_patterns := ["*.txt"] ++ ["!keep.txt"] |}
    (Sample.root ++ ["keep.txt"]) false
  = Contextro._should_ignore
      {| Contextro.root_dir := Sample.root;
         Contextro.ignore_file := Sample.root ++ [".contextignore"];
         Contextro.ignore_patterns := ["*.txt"] |}
      (Sample.root ++ ["keep.txt"]) false.
Proof.
  apply (proj1 (@trailing_negation_is_dead posix Sample.root
                  (Sample.root ++ [".contextignore"]) ["*.txt"] "!keep.txt"
                  (Sample.root ++ ["keep.txt"]) false eq_refl)).
Defined.

(** ** Loading the ignore file *)

Section Strip.

Lemma string_length_ind (P : string -> Prop) :
  (forall s, (forall r, String.length r < String.length s -> P r) -> P s) ->
  forall s, P s.
Proof.
  intros H s. remember (String.length s) as n eqn:E. revert s E.
  induction n as [n IH] using lt_wf_ind. intros s ->.
  apply H. intros r Hr. now apply (IH (String.length r)).
Qed.

Lemma lstrip_cons (c : ascii) (s1 : string) :
  lstrip (String c s1) =
  if isspace c then lstrip s1
  else
    match s1 with
    | String d s2 =>
        if isspace2 c d then lstrip s2
        else
          match s2 with
          | String e s3 => if isspace3 c d e then lstrip s3 else String c s1
          | EmptyString => String c s1
          end
    | EmptyString => String c s1
    end.
Proof. reflexivity. Qed.

(** [lstrip] removes the white-space characters one by one. *)
Lemma lstrip_step (s : string) :
  lstrip s = match after_space s with Some r => lstrip r | None => s end.
Proof.
  destruct s as [|c s1]; [reflexivity|]. rewrite lstrip_cons.
  cbn [after_space]. destruct (isspace c); [reflexivity|].
  destruct s1 as [|d s2]; [reflexivity|].
  destruct (isspace2 c d); [reflexivity|].
  destruct s2 as [|e s3]; [reflexivity|].
  now destruct (isspace3 c d e).
Qed.

Lemma after_space_shorter (s r : string) :
  after_space s = Some r -> String.length r < String.length s.
Proof.
  destruct s as [|c s1]; [discriminate|]. cbn [after_space].
  destruct (isspace c); [intros [= <-]; simpl; lia|].
  destruct s1 as [|d s2]; [discriminate|].
  destruct (isspace2 c d); [intros [= <-]; simpl; lia|].
  destruct s2 as [|e s3]; [discriminate|].
  destruct (isspace3 c d e); [intros [= <-]; simpl; lia|discriminate].
Qed.

Lemma after_space_app (a r w : string) :
  after_space a = Some r -> after_space (a ++ w) = Some (r ++ w)%string.
Proof.
  destruct a as [|c s1]; [discriminate|]. cbn [after_space String.append].
  destruct (isspace c); [now intros [= <-]|].
  destruct s1 as [|d s2]; [discriminate|]. cbn [String.append].
  destruct (isspace2 c d); [now intros [= <-]|].
  destruct s2 as [|e s3]; [discriminate|]. cbn [String.append].
  destruct (isspace3 c d e); [now intros [= <-]|discriminate].
Qed.

Lemma after_space_prefix (a w : string) :
  after_space (a ++ w) = None -> after_space a = None.
Proof.
  intros H. destruct (after_space a) as [r|] eqn:E; [|reflexivity].
  rewrite (after_space_app _ w E) in H. discriminate.
Qed.

Lemma lstrip_clean (s : string) : after_space (lstrip s) = None.
Proof.
  induction s as [s IH] using string_length_ind. rewrite lstrip_step.
  destruct (after_space s) as [r|] eqn:E; [|exact E].
  apply IH. now apply after_space_shorter.
Qed.

Lemma lstrip_fixed (s : string) : after_space s = None -> lstrip s = s.
Proof. intros H. now rewrite lstrip_step, H. Qed.

Lemma blank_app (a w : string) :
  blank a = true -> blank w = true -> blank (a ++ w) = true.
Proof.
  induction a as [a IH] using string_length_ind. intros Ha Hw.
  destruct a as [|c a']; [exact Hw|].
  unfold blank in *. rewrite lstrip_step in Ha. rewrite lstrip_step.
  destruct (after_space (String c a')) as [r|] eqn:E; [|discriminate].
  rewrite (after_space_app _ w E).
  apply IH; [now apply after_space_shorter|assumption|assumption].
Qed.

Lemma rstrip_cons (c : ascii) (s : string) :
  rstrip (String c s) =
  if blank (String c s) then EmptyString else String c (rstrip s).
Proof. reflexivity. Qed.

(** [rstrip] cuts white space off the end. *)
Lemma rstrip_split (s : string) :
  exists w, s = (rstrip s ++ w)%string /\ blank w = true.
Proof.
  induction s as [|c s IH]; [now exists ""|]. rewrite rstrip_cons.
  destruct (blank (String c s)) eqn:E; [now exists (String c s)|].
  destruct IH as (w & Hs & Hw). exists w. split; [|assumption].
  cbn [String.append]. now rewrite <- Hs.
Qed.

Lemma rstrip_idempotent (s : string) : rstrip (rstrip s) = rstrip s.
Proof.
  induction s as [|c s IH]; [reflexivity|]. rewrite rstrip_cons.
  destruct (blank (String c s)) eqn:E; [reflexivity|].
  rewrite rstrip_cons, IH.
  destruct (blank (String c (rstrip s))) eqn:E'; [|reflexivity].
  destruct (rstrip_split s) as (w & Hs & Hw).
  pose proof (blank_app (String c (rstrip s)) w E' Hw) as Hb.
  cbn [String.append] in Hb. rewrite <- Hs in Hb. congruence.
Qed.

Lemma strip_no_leading (s : string) : lstrip (strip s) = strip s.
Proof.
  unfold strip. apply lstrip_fixed.
  destruct (rstrip_split (lstrip s)) as (w & Hs & _).
  apply after_space_prefix with w. rewrite <- Hs. apply lstrip_clean.
Qed.

Lemma strip_no_trailing (s : string) : rstrip (strip s) = strip s.
Proof. unfold strip. apply rstrip_idempotent. Qed.

Lemma loaded_lines_clean (text : string) (p : string) :
  In p (filter
          (fun line => negb (String.eqb line "") && negb (startswith line "#"))
          (map strip (lines text))) ->
  p <> "" /\ startswith p "#" = false /\ lstrip p = p /\ rstrip p = p.
Proof.
  intros H. apply filter_In in H. destruct H as [Hin Hp].
  apply andb_true_iff in Hp. destruct Hp as [Hne Hc].
  apply negb_true_iff in Hne, Hc. apply String.eqb_neq in Hne.
  apply in_map_iff in Hin. destruct Hin as (line & <- & _).
  repeat split; try assumption.
  - apply strip_no_leading.
  - apply strip_no_trailing.
Qed.

End Strip.

Section Loading.
Context {R : Runtime}.

(** Every pattern an instance holds is a non-empty string that is not a
    comment and has no white space at either end, of one octet or more:
    [lstrip] and [rstrip] leave it as it is. In both variants. *)
Theorem loaded_patterns_clean (fs : tree) (root file : path) :
  (forall self p,
      Contextro.__init__ fs root file = Ok self ->
      In p (Contextro.ignore_patterns self) ->
      p <> "" /\ startswith p "#" = false /\ lstrip p = p /\ rstrip p = p)
  /\ (forall self p,
         ContextBuilder.__init__ fs root file = Ok self ->
         In p (ContextBuilder.ignore_patterns self) ->
         p <> "" /\ startswith p "#" = false /\ lstrip p = p /\ rstrip p = p).
Proof.
  split.
  - intros self p. unfold Contextro.__init__, Contextro._load_ignore_patterns.
    destruct (lookup fs file) as [[data|t]|].
    + destruct (read_text data) as [text|e]; [|discriminate].
      intros [= <-]. cbn [Contextro.ignore_patterns]. intros Hin.
      apply in_app_or in Hin. destruct Hin as [Hin|[<-|[]]].
      * now apply loaded_lines_clean with text.
      * repeat split; try reflexivity. discriminate.
    + discriminate.
    + intros [= <-]. cbn [Contextro.ignore_patterns app].
      intros [<-|[]]. repeat split; try reflexivity. discriminate.
  - intros self p.
    unfold ContextBuilder.__init__, ContextBuilder._load_ignore_patterns.
    destruct (lookup fs file) as [[data|t]|].
    + destruct (read_text data) as [text|e]; [|discriminate].
      intros [= <-]. cbn [ContextBuilder.ignore_patterns]. intros Hin.
      now apply loaded_lines_clean with text.
    + discriminate.
    + intros [= <-]. intros [].
Qed.


(** [main] exits with status 1, and nothing has been written, whenever the
    ignore file exists and cannot be loaded (it is a directory, it cannot be
    read, or its bytes do not decode) and whenever the artifact cannot be
    created. A status of 0 tells that the instance was built and the
    artifact created. There is no third status. *)
Theorem main_status (fs : tree) (directory file : path) (timestamp : string) :
  let output_file :=
    directory ++ [("contextro_context_" ++ timestamp ++ ".txt")%string] in
  let status := snd (Contextro.main fs directory file timestamp) in
  ((exists t, lookup fs file = Some (IsDir t))
   \/ lookup fs file = Some (IsFile None)
   \/ (exists bs, lookup fs file = Some (IsFile (Some bs)) /\ decode bs = None)
   \/ can_create output_file = false ->
   status = 1 /\ fst (Contextro.main fs directory file timestamp) = initial)
  /\ (status = 0 ->
      can_create output_file = true
      /\ exists self, Contextro.__init__ fs directory file = Ok self)
  /\ (status = 0 \/ status = 1).
Proof.
  intros output_file status. unfold status, Contextro.main. fold output_file.
  destruct (Contextro.__init__ fs directory file) as [self|e] eqn:Hinit.
  - destruct (can_create output_file) eqn:Hc.
    + rewrite build_context_spec. cbn [snd fst].
      split; [|split; [intros _; split; [reflexivity|now exists self]|now left]].
      unfold Contextro.__init__, Contextro._load_ignore_patterns, read_text
        in Hinit.
      intros [(t & H) | [H | [(bs & H & Hd) | H]]]; try discriminate;
        rewrite H in Hinit; try discriminate.
      rewrite Hd in Hinit. discriminate.
    + cbn [snd fst]. split; [now split|]. split; [discriminate|now right].
  - cbn [snd fst]. split; [now split|]. split; [discriminate|now right].
Qed.

End Loading.

Lemma loaded_patterns_clean_scenario :
  "sub/" <> "" /\ startswith "sub/" "#" = false
  /\ lstrip "sub/" = "sub/" /\ rstrip "sub/" = "sub/".
Proof.
  apply (proj1 (@loaded_patterns_clean posix Sample.scenario Sample.root
                  [".contextignore"])
           {| Contextro.root_dir := Sample.root;
              Contextro.ignore_file := Sample.root ++ [".contextignore"];
              Contextro.ignore_patterns :=
                ["sub/"; "contextro_context_*.txt"] |}).
  - vm_compute. reflexivity.
  - now left.
Defined.

(** White space of more than one octet goes as well: a line between two
    no-break spaces (U+00A0) gives the pattern between them. *)
Example strip_no_break_space :
  strip (String "194" (String "160" ("*.log" ++ String "194" (String "160" ""))))
  = "*.log".
Proof. vm_compute. reflexivity. Qed.


Lemma main_status_directory :
  snd (Contextro.main (Node [] [("conf", Node [] [])]) Sample.root ["conf"]
         Sample.timestamp) = 1
  /\ fst (Contextro.main (Node [] [("conf", Node [] [])]) Sample.root ["conf"]
            Sample.timestamp) = initial.
Proof.
  apply (proj1 (@main_status posix (Node [] [("conf", Node [] [])]) Sample.root
                  ["conf"] Sample.timestamp)).
  left. now exists (Node [] []).
Defined.


(** ** The records of a run *)

Section Records.
Context {R : Runtime}.
Variable self : Contextro.t.
Variable timestamp : string.

Let output_file : path :=
  Contextro.root_dir self ++ [("contextro_context_" ++ timestamp ++ ".txt")%string].















(** The walk does not look into a directory the match operation ignores:
    whatever stands in it, the run writes and prints the same. *)
Theorem ignored_directory_not_listed (files : list (string * file_data))
    (dirs dirs' : list (string * tree)) (d : string) (sub sub' : tree)
    (st : state) :
  Contextro._should_ignore self (Contextro.root_dir self ++ [d]) true = Ok true ->
  Contextro.build_context self timestamp
    (Node files (dirs ++ (d, sub) :: dirs')) st
  = Contextro.build_context self timestamp
      (Node files (dirs ++ (d, sub') :: dirs')) st.
Proof.
  intros Hign. rewrite !build_context_spec.
  unfold tree_writes, tree_prints. cbn [collect].
  rewrite !flat_map_app. cbn [flat_map app]. now rewrite Hign.
Qed.

End Records.

Lemma ignored_directory_not_listed_scenario :
  let self := {| Contextro.root_dir := Sample.root;
                 Contextro.ignore_file := Sample.root ++ [".contextignore"];
                 Contextro.ignore_patterns :=
                   ["sub/"; "contextro_context_*.txt"] |} in
  Contextro.build_context self Sample.timestamp Sample.scenario initial
  = Contextro.build_context self Sample.timestamp
      (Node [(".contextignore", Some (Sample.bytes ("sub/" ++ Sample.nl)));
             ("a.txt", Some (Sample.bytes "hello"));
             ("b.bin", Some [x62; x00; x63])]
            [("sub", Node [] [])]) initial.
Proof.
  intros self.
  apply (@ignored_directory_not_listed posix self Sample.timestamp
           [(".contextignore", Some (Sample.bytes ("sub/" ++ Sample.nl)));
            ("a.txt", Some (Sample.bytes "hello"));
            ("b.bin", Some [x62; x00; x63])]
           [] [] "sub" (Node [("c.txt", Some (Sample.bytes "world"))] [])
           (Node [] []) initial).
  vm_compute. reflexivity.
Defined.

(** ** The artifact of the run itself *)

Section OwnArtifact.
Context {R : Runtime} {L : GlobLaws R}.

(** The name of every artifact matches the built-in pattern. *)
Lemma artifact_name_matches (timestamp : string) :
  fnmatch ("contextro_context_" ++ timestamp ++ ".txt")
    "contextro_context_*.txt" = true.
Proof. exact (glob_star "contextro_context_" timestamp ".txt" eq_refl eq_refl). Qed.

(** The run does not read the artifact it is writing: for a glob matcher
    with the laws of [GlobLaws] and every time of the run, the match
    operation ignores the path of the output file, and no record of the
    artifact bears its name, unless a negation pattern of the ignore file
    matches that name. *)
Theorem own_artifact_not_recorded (fs0 fs : tree) (root file : path)
    (self : Contextro.t) (timestamp : string) :
  let name := ("contextro_context_" ++ timestamp ++ ".txt")%string in
  Contextro.__init__ fs0 root file = Ok self ->
  (forall q, In q (Contextro.ignore_patterns self) ->
             startswith q "!" = true -> fnmatch name (from1 q) = false) ->
  Contextro._should_ignore self (root ++ [name]) false = Ok true
  /\ ~ In (Separator [name])
          (out (fst (Contextro.build_context self timestamp fs initial))).
Proof.
  intros name Hinit Hneg.
  destruct (init_patterns _ _ _ Hinit) as (Hroot & user & _ & Hpats).
  assert (Hign : Contextro._should_ignore self (root ++ [name]) false = Ok true).
  { rewrite <- Hroot, should_ignore_under, Hpats.
    rewrite ignored_unless_negated; [reflexivity| |].
    - intros q Hq. apply Hneg. rewrite Hpats. apply in_or_app. now left.
    - apply match_variation with "contextro_context_*.txt".
      + reflexivity.
      + now left.
      + change (endswith "contextro_context_*.txt" "/") with false. cbv iota.
        apply artifact_name_matches. }
  split; [exact Hign|].
  rewrite build_context_spec. cbn [fst out extend initial app].
  intros Hin. apply in_collect in Hin. destruct Hin as (dir & f & Hvis & Hin).
  pose proof (separator_origin _ _ _ _ Hin) as Hp.
  change [name] with ([] ++ [name]) in Hp. apply app_inj_tail in Hp.
  destruct Hp as [<- Hname]. unfold file_writes in Hin.
  rewrite <- Hname, Hroot in Hin. cbn [app] in Hin. rewrite Hign in Hin.
  destruct Hin.
Qed.

End OwnArtifact.

Lemma own_artifact_not_recorded_scenario :
  let self := {| Contextro.root_dir := Sample.root;
                 Contextro.ignore_file := Sample.root ++ [".contextignore"];
                 Contextro.ignore_patterns :=
                   ["sub/"; "contextro_context_*.txt"] |} in
  Contextro._should_ignore self
    (Sample.root ++ ["contextro_context_20240102_030405.txt"]) false = Ok true.
Proof.
  intros self.
  refine (proj1 (@own_artifact_not_recorded posix posix_glob Sample.scenario
                   Sample.scenario Sample.root [".contextignore"] self
                   Sample.timestamp _ _)).
  - vm_compute. reflexivity.
  - intros q [<-|[<-|[]]]; discriminate.
Defined.

(** ** What a plain name ignores *)

Section PlainNames.

Lemma matches_star_iff (ts : list Fnmatch.token) (s : list ascii) :
  Fnmatch.matches (Fnmatch.Star :: ts) s = true <->
  exists pre suf, s = pre ++ suf /\ Fnmatch.matches ts suf = true.
Proof.
  split.
  - induction s as [|c s IH]; rewrite matches_star; intros H;
      apply orb_true_iff in H; destruct H as [H|H].
    + now exists [], [].
    + discriminate.
    + now exists [], (c :: s).
    + destruct (IH H) as (pre & suf & -> & Hm). now exists (c :: pre), suf.
  - intros (pre & suf & -> & Hm). now apply matches_star_skip.
Qed.

Lemma matches_literal_iff (l : list ascii) (ts : list Fnmatch.token)
    (s : list ascii) :
  Fnmatch.matches (map Fnmatch.Lit l ++ ts) s = true <->
  exists suf, s = l ++ suf /\ Fnmatch.matches ts suf = true.
Proof.
  revert s. induction l as [|c l IH]; intros s.
  - simpl. split; [intros H; now exists s|now intros (suf & -> & H)].
  - simpl. destruct s as [|d s].
    + split; [discriminate|]. now intros (suf & [=] & _).
    + rewrite andb_true_iff, IH. split.
      * intros (Hc & suf & -> & Hm). apply Ascii.eqb_eq in Hc. subst d.
        now exists suf.
      * intros (suf & [= -> ->] & Hm). split; [apply Ascii.eqb_refl|].
        now exists suf.
Qed.

Lemma matches_end (s : list ascii) : Fnmatch.matches [] s = true <-> s = [].
Proof. destruct s; simpl; split; congruence. Qed.

Lemma matches_literal_exact (l s : list ascii) :
  Fnmatch.matches (map Fnmatch.Lit l) s = true <-> s = l.
Proof.
  rewrite <- (app_nil_r (map Fnmatch.Lit l)), matches_literal_iff. split.
  - intros (suf & -> & Hm). apply matches_end in Hm. subst suf.
    now rewrite app_nil_r.
  - intros ->. exists []. now rewrite app_nil_r.
Qed.

Lemma matches_two_stars_end (s : list ascii) :
  Fnmatch.matches [Fnmatch.Star; Fnmatch.Star] s = true.
Proof.
  apply matches_star_iff. exists [], s. split; [reflexivity|].
  apply matches_star_iff. exists s, []. now rewrite app_nil_r.
Qed.

Lemma list_ascii_of_string_inj (s t : string) :
  list_ascii_of_string s = list_ascii_of_string t -> s = t.
Proof.
  intros H. rewrite <- (string_of_list_ascii_of_string s),
    <- (string_of_list_ascii_of_string t). now rewrite H.
Qed.

Lemma string_split (s : string) (l1 l2 : list ascii) :
  list_ascii_of_string s = l1 ++ l2 ->
  s = (string_of_list_ascii l1 ++ string_of_list_ascii l2)%string.
Proof.
  intros H. apply list_ascii_of_string_inj.
  now rewrite list_ascii_of_string_app, !list_ascii_of_string_of_list_ascii.
Qed.

(** A plain name matches itself only. *)
Lemma fnmatch_literal_iff (s p : string) :
  literal p = true -> (@fnmatch posix s p = true <-> s = p).
Proof.
  intros Hp. cbn [fnmatch posix]. unfold Fnmatch.fnmatch.
  rewrite (translate_literal _ Hp), matches_literal_exact. split.
  - apply list_ascii_of_string_inj.
  - now intros ->.
Qed.

(** [**/] and a plain name match the strings that end with a slash and the
    name. *)
Lemma fnmatch_below_iff (s p : string) :
  literal p = true ->
  (@fnmatch posix s (String "*" (String "*" (String "/" p))) = true <->
   exists pre, s = (pre ++ "/" ++ p)%string).
Proof.
  intros Hp. cbn [fnmatch posix]. unfold Fnmatch.fnmatch.
  change (Fnmatch.translate
            (list_ascii_of_string (String "*" (String "*" (String "/" p)))) 0)
    with (Fnmatch.Star :: Fnmatch.Star
          :: Fnmatch.Lit "/" :: Fnmatch.translate (list_ascii_of_string p) 0).
  rewrite (translate_literal _ Hp). split.
  - intros H. apply matches_star_iff in H. destruct H as (a & r & Hs & H).
    apply matches_star_iff in H. destruct H as (b & r' & -> & H).
    change (Fnmatch.Lit "/" :: map Fnmatch.Lit (list_ascii_of_string p))
      with (map Fnmatch.Lit ("/"%char :: list_ascii_of_string p)) in H.
    apply matches_literal_exact in H. subst r'.
    exists (string_of_list_ascii (a ++ b)). apply list_ascii_of_string_inj.
    rewrite !list_ascii_of_string_app, list_ascii_of_string_of_list_ascii, Hs.
    now rewrite <- app_assoc.
  - intros (pre & ->). rewrite !list_ascii_of_string_app.
    apply matches_star_skip. rewrite matches_star. apply orb_true_iff. left.
    change (list_ascii_of_string "/") with ["/"%char]. cbn [app].
    change (Fnmatch.Lit "/" :: map Fnmatch.Lit (list_ascii_of_string p))
      with (map Fnmatch.Lit ("/"%char :: list_ascii_of_string p)).
    apply matches_literal.
Qed.

(** [**/], a plain name and [/**] match the strings that hold a slash, the
    name and a slash. *)
Lemma fnmatch_inside_iff (s p : string) :
  literal p = true ->
  (@fnmatch posix s (String "*" (String "*" (String "/" (p ++ "/**")))) = true
   <-> exists pre suf, s = (pre ++ "/" ++ p ++ "/" ++ suf)%string).
Proof.
  intros Hp. cbn [fnmatch posix]. unfold Fnmatch.fnmatch.
  change (Fnmatch.translate
            (list_ascii_of_string
               (String "*" (String "*" (String "/" (p ++ "/**"))))) 0)
    with (Fnmatch.Star :: Fnmatch.Star :: Fnmatch.Lit "/"
          :: Fnmatch.translate (list_ascii_of_string (p ++ "/**")) 0).
  rewrite list_ascii_of_string_app, (translate_literal_app _ _ Hp).
  change (Fnmatch.translate (list_ascii_of_string "/**") 0)
    with [Fnmatch.Lit "/"; Fnmatch.Star; Fnmatch.Star].
  split.
  - intros H. apply matches_star_iff in H. destruct H as (a & r & Hs & H).
    apply matches_star_iff in H. destruct H as (b & r' & -> & H).
    change (Fnmatch.Lit "/"
            :: map Fnmatch.Lit (list_ascii_of_string p)
               ++ [Fnmatch.Lit "/"; Fnmatch.Star; Fnmatch.Star])
      with (map Fnmatch.Lit ("/"%char :: list_ascii_of_string p)
            ++ map Fnmatch.Lit ["/"%char] ++ [Fnmatch.Star; Fnmatch.Star]) in H.
    apply matches_literal_iff in H. destruct H as (r1 & -> & H).
    apply matches_literal_iff in H. destruct H as (r2 & -> & _).
    exists (string_of_list_ascii (a ++ b)), (string_of_list_ascii r2).
    apply list_ascii_of_string_inj.
    rewrite !list_ascii_of_string_app, !list_ascii_of_string_of_list_ascii, Hs.
    change (list_ascii_of_string "/") with ["/"%char].
    now rewrite <- !app_assoc.
  - intros (pre & suf & ->). rewrite !list_ascii_of_string_app.
    apply matches_star_skip. rewrite matches_star. apply orb_true_iff. left.
    change (list_ascii_of_string "/") with ["/"%char]. cbn [app].
    change (Fnmatch.Lit "/"
            :: map Fnmatch.Lit (list_ascii_of_string p)
               ++ [Fnmatch.Lit "/"; Fnmatch.Star; Fnmatch.Star])
      with (map Fnmatch.Lit ("/"%char :: list_ascii_of_string p)
            ++ map Fnmatch.Lit ["/"%char] ++ [Fnmatch.Star; Fnmatch.Star]).
    change ("/"%char :: list_ascii_of_string p
            ++ "/"%char :: list_ascii_of_string suf)
      with (("/"%char :: list_ascii_of_string p)
            ++ ["/"%char] ++ list_ascii_of_string suf).
    rewrite !matches_literal_prefix. apply matches_two_stars_end.
Qed.

End PlainNames.

(** In the richer variant a plain name, as a pattern, returns ignore for the
    path equal to it, for every path that ends with a slash and the name,
    for every path that holds a slash, the name and a slash, and for no
    other path. For a directory-only pattern the path is taken with its
    slash when it is a directory. *)
Theorem plain_name_ignores (pattern rel_path rel_path_with_slash : string) :
  literal pattern = true ->
  startswith pattern "!" = false ->
  let tested :=
    if endswith pattern "/" then rel_path_with_slash else rel_path in
  @Contextro.pattern_body posix rel_path rel_path_with_slash pattern = Some true
  <->
  tested = pattern
  \/ (exists pre, tested = (pre ++ "/" ++ pattern)%string)
  \/ (exists pre suf, tested = (pre ++ "/" ++ pattern ++ "/" ++ suf)%string).
Proof.
  intros Hlit Hbang tested. split.
  - intros H. apply pattern_body_sound in H.
    inversion H as [|p var _ Hin Hm]; subst. fold tested in Hm.
    destruct Hin as [<- | [<- | [<- | []]]].
    + left. now apply (fnmatch_literal_iff tested pattern Hlit).
    + right. left. now apply (fnmatch_below_iff tested pattern Hlit).
    + right. right. now apply (fnmatch_inside_iff tested pattern Hlit).
  - intros H. apply pattern_body_complete.
    destruct H as [H | [H | H]].
    + apply match_variation with pattern; [assumption|now left|].
      fold tested. now apply (fnmatch_literal_iff tested pattern Hlit).
    + apply match_variation
        with (String "*" (String "*" (String "/" pattern)));
        [assumption|right; now left|].
      fold tested. now apply (fnmatch_below_iff tested pattern Hlit).
    + apply match_variation
        with (String "*" (String "*" (String "/" (pattern ++ "/**"))));
        [assumption|right; right; now left|].
      fold tested. now apply (fnmatch_inside_iff tested pattern Hlit).
Qed.

Lemma plain_name_ignores_node_modules :
  @Contextro.pattern_body posix "web/node_modules" "web/node_modules/"
    "node_modules" = Some true.
Proof.
  apply (proj2 (@plain_name_ignores "node_modules" "web/node_modules"
                  "web/node_modules/" eq_refl eq_refl)).
  right. left. now exists "web".
Defined.

(** In the simpler variant a plain name returns ignore for the path equal
    to it and for no other: the entry of that name at the root. A
    directory-only pattern is compared with the path and a slash, for plain
    files as well. *)
Theorem simple_plain_name_ignores (pattern rel_path : string) :
  literal pattern = true ->
  startswith pattern "!" = false ->
  @ContextBuilder.pattern_body posix rel_path pattern = Some true
  <->
  (if endswith pattern "/" then (rel_path ++ "/")%string else rel_path)
  = pattern.
Proof.
  intros Hlit Hbang. unfold ContextBuilder.pattern_body. rewrite Hbang.
  destruct (endswith pattern "/").
  - rewrite <- (fnmatch_literal_iff (rel_path ++ "/") pattern Hlit).
    destruct (fnmatch (rel_path ++ "/")%string pattern); split; congruence.
  - rewrite <- (fnmatch_literal_iff rel_path pattern Hlit).
    destruct (fnmatch rel_path pattern); split; congruence.
Qed.

Lemma simple_plain_name_ignores_node_modules :
  @ContextBuilder.pattern_body posix "web/node_modules" "node_modules"
  <> Some true.
Proof.
  intros H.
  apply (proj1 (@simple_plain_name_ignores "node_modules" "web/node_modules"
                  eq_refl eq_refl)) in H.
  discriminate H.
Defined.

(** ** The walk of the simpler variant *)

Section SimpleWalk.
Context {R : Runtime}.
Variable self : ContextBuilder.t.
Variable output_file : path.

Let root : path := ContextBuilder.root_dir self.








End SimpleWalk.

Section SimpleRun.
Context {R : Runtime}.





End SimpleRun.


(** ** The old artifacts *)

Section OldArtifacts.
Context {R : Runtime}.







End OldArtifacts.

Section CleanupLines.
Context {R : Runtime}.



End CleanupLines.

(** An old artifact at the root goes, one in a sub-directory stays, and a
    directory with the name of an artifact gives an error line; the lines
    come in the order of the listing, here the directory first. *)
Example cleanup_sample :
  let self := {| Contextro.root_dir := Sample.root;
                 Contextro.ignore_file := Sample.root ++ [".contextignore"];
                 Contextro.ignore_patterns := ["contextro_context_*.txt"] |} in
  Housekeeping._cleanup_old_context_files self (fun _ => true)
    Sample.old_listing Sample.old_artifacts
  = Some
      (Node [("a.txt", Some (Sample.bytes "hello"))]
            [("contextro_context_dir.txt", Node [] []);
             ("sub", Node [("contextro_context_1.txt", Some [])] [])],
       [Housekeeping.ErrorDeleting
          (Sample.root ++ ["contextro_context_dir.txt"]) IsADirectoryError;
        Housekeeping.Deleted
          (Sample.root ++ ["contextro_context_20240101_000000.txt"])]).
Proof. vm_compute. reflexivity. Qed.

(** The path of the root is part of the pattern given to [glob.glob]: for
    the root [/tmp/proj[1]] the glob looks into [/tmp/proj1], and the tree
    below the root does not tell what the cleanup does. *)
Example cleanup_magic_root :
  let self := {| Contextro.root_dir := ["/"; "tmp"; "proj[1]"];
                 Contextro.ignore_file := ["/"; "tmp"; "proj[1]"; ".contextignore"];
                 Contextro.ignore_patterns := ["contextro_context_*.txt"] |} in
  Housekeeping._cleanup_old_context_files self (fun _ => true)
    Sample.old_listing Sample.old_artifacts = None.
Proof. reflexivity. Qed.



(** ** Directory-only patterns and plain files *)

Section Kinds.
Context {R : Runtime}.

Lemma for_return_ext_in {A B : Type} (f g : A -> option B) (l : list A) :
  (forall x, In x l -> f x = g x) -> for_return l f = for_return l g.
Proof.
  induction l as [|x l IH]; intros H; simpl; [reflexivity|].
  rewrite (H x (or_introl eq_refl)). destruct (g x); [reflexivity|].
  apply IH. intros y Hy. apply H. now right.
Qed.

(** Whether the path is a directory matters for directory-only patterns
    alone: with none in the list, the richer variant returns the same for a
    directory and for a plain file of the same path. *)
Theorem kind_matters_for_directory_patterns_only (self : Contextro.t) (p : path) :
  (forall q, In q (Contextro.ignore_patterns self) ->
             startswith q "!" = false -> endswith q "/" = false) ->
  Contextro._should_ignore self p true = Contextro._should_ignore self p false.
Proof.
  intros H. unfold Contextro._should_ignore.
  destruct (relative_to p (Contextro.root_dir self)) as [rel|e]; [|reflexivity].
  rewrite (for_return_ext_in
             (Contextro.pattern_body (str_path rel) (str_path rel ++ "/"))
             (Contextro.pattern_body (str_path rel) (str_path rel)));
    [reflexivity|].
  intros q Hq. unfold Contextro.pattern_body.
  destruct (startswith q "!") eqn:Hn; [reflexivity|].
  now rewrite (H q Hq Hn).
Qed.

End Kinds.

Lemma kind_matters_for_directory_patterns_only_log :
  let self := {| Contextro.root_dir := Sample.root;
                 Contextro.ignore_file := Sample.root ++ [".contextignore"];
                 Contextro.ignore_patterns :=
                   ["*.log"; "contextro_context_*.txt"] |} in
  Contextro._should_ignore self (Sample.root ++ ["x.log"]) true
  = Contextro._should_ignore self (Sample.root ++ ["x.log"]) false.
Proof.
  intros self.
  apply (@kind_matters_for_directory_patterns_only posix self).
  intros q [<-|[<-|[]]] _; reflexivity.
Defined.

Section PlainFiles.

Lemma endswith_app (a b : string) (c : ascii) :
  b <> "" -> endswith (a ++ b) c = endswith b c.
Proof.
  intros Hb. induction a as [|x a IH]; [reflexivity|].
  simpl. destruct (a ++ b)%string eqn:E; [|exact IH].
  destruct a; [now destruct Hb|discriminate].
Qed.

Lemma endswith_no_slash (s : string) :
  forallb (fun a => negb (Ascii.eqb a Names.slash)) (list_ascii_of_string s)
  = true ->
  endswith s "/" = false.
Proof.
  induction s as [|x s IH]; [reflexivity|]. simpl. intros H.
  apply andb_true_iff in H. destruct H as [Hx Hs].
  destruct s; [now apply negb_true_iff in Hx|now apply IH].
Qed.

Lemma name_ok_facts (name : string) :
  Names.name_ok name = true ->
  name <> "" /\ endswith name "/" = false
  /\ Names.leading_slash name = false /\ Names.double_slash name = false.
Proof.
  unfold Names.name_ok. intros H. apply andb_true_iff in H.
  destruct H as [Hne Hs]. apply negb_true_iff, String.eqb_neq in Hne.
  split; [assumption|]. split; [now apply endswith_no_slash|].
  split.
  - destruct name as [|a name]; [reflexivity|]. simpl in Hs.
    apply andb_true_iff in Hs. now apply negb_true_iff.
  - clear Hne. induction name as [|a name IH]; [reflexivity|].
    simpl in Hs. apply andb_true_iff in Hs. destruct Hs as [Ha Hs].
    apply negb_true_iff in Ha. destruct name as [|b name]; [reflexivity|].
    cbn [Names.double_slash]. rewrite Ha. cbn [andb orb]. now apply IH.
Qed.

Lemma double_slash_app (a b : string) :
  Names.double_slash a = false -> Names.double_slash b = false ->
  (endswith a "/" = false \/ Names.leading_slash b = false) ->
  Names.double_slash (a ++ b) = false.
Proof.
  intros Ha Hb Hj. induction a as [|x a IH]; [exact Hb|].
  destruct a as [|y a].
  - simpl. destruct b as [|z b]; [reflexivity|]. rewrite Hb.
    destruct Hj as [Hj|Hj].
    + simpl in Hj. unfold Names.slash. rewrite Hj. reflexivity.
    + simpl in Hj. rewrite Hj. now rewrite andb_false_r.
  - change ((Ascii.eqb x Names.slash && Ascii.eqb y Names.slash)
            || Names.double_slash (String y a ++ b) = false).
    change (Names.double_slash (String x (String y a)))
      with ((Ascii.eqb x Names.slash && Ascii.eqb y Names.slash)
            || Names.double_slash (String y a)) in Ha.
    apply orb_false_iff in Ha. destruct Ha as [Hxy Ha]. rewrite Hxy.
    apply IH; [assumption|]. destruct Hj as [Hj|Hj]; [left|now right].
    exact Hj.
Qed.

Lemma double_slash_found (a b : string) :
  Names.double_slash (a ++ "//" ++ b) = true.
Proof.
  induction a as [|x a IH]; [reflexivity|].
  simpl. destruct (a ++ String "/" (String "/" b))%string eqn:E.
  - destruct a; discriminate.
  - simpl in IH. rewrite E in IH. rewrite IH. apply orb_true_r.
Qed.

(** The path of entries that bear names: no separator at either end and no
    two in a row. *)
Lemma join_parts_clean (rel : path) :
  forallb Names.name_ok rel = true -> rel <> [] ->
  endswith (join_parts rel) "/" = false
  /\ Names.leading_slash (join_parts rel) = false
  /\ Names.double_slash (join_parts rel) = false.
Proof.
  induction rel as [|x rel IH]; intros H Hne; [now destruct Hne|].
  simpl in H. apply andb_true_iff in H. destruct H as [Hx Hrel].
  destruct (name_ok_facts x Hx) as (Hxne & Hxe & Hxl & Hxd).
  destruct rel as [|y rel]; [now repeat split|].
  rewrite join_parts_cons.
  destruct (IH Hrel ltac:(discriminate)) as (He & Hl & Hd).
  set (rest := join_parts (y :: rel)) in *.
  assert (Hrest : rest <> "").
  { unfold rest. destruct (name_ok_facts y) as (Hy & _).
    - simpl in Hrel. now apply andb_true_iff in Hrel.
    - destruct rel; [exact Hy|]. rewrite join_parts_cons.
      destruct y; [now destruct Hy|discriminate]. }
  repeat split.
  - rewrite endswith_app; [|discriminate].
    change ("/" ++ rest)%string with (String "/" rest).
    simpl. destruct rest; [now destruct Hrest|exact He].
  - destruct x; [now destruct Hxne|exact Hxl].
  - apply double_slash_app; [assumption| |now left].
    change ("/" ++ rest)%string with (String "/" rest).
    destruct rest as [|z rest']; [reflexivity|].
    change (Names.double_slash (String "/" (String z rest')))
      with ((Ascii.eqb "/" Names.slash && Ascii.eqb z Names.slash)
            || Names.double_slash (String z rest')).
    rewrite Hd. simpl in Hl. rewrite Hl. reflexivity.
Qed.

End PlainFiles.

Lemma str_path_clean (rel : path) :
  forallb Names.name_ok rel = true ->
  endswith (str_path rel) "/" = false
  /\ Names.double_slash (str_path rel) = false.
Proof.
  intros H. destruct rel as [|x rel]; [now split|].
  destruct (@join_parts_clean (x :: rel) H ltac:(discriminate)) as (He & _ & Hd).
  now split.
Qed.

(** In the richer variant a directory-only pattern with a plain name never
    returns for a plain file, whatever its path: none of the three
    variations matches a path that ends without a separator and holds no
    two in a row. *)
Theorem directory_pattern_spares_plain_files (foo : string) (rel : path) :
  literal foo = true ->
  startswith foo "!" = false ->
  forallb Names.name_ok rel = true ->
  @Contextro.pattern_body posix (str_path rel) (str_path rel) (foo ++ "/")
  = None.
Proof.
  intros Hlit Hbang Hrel.
  destruct (@str_path_clean rel Hrel) as [Hend Hdouble].
  set (rp := str_path rel) in *.
  assert (Hp : literal (foo ++ "/") = true).
  { unfold literal in *. now rewrite list_ascii_of_string_app, forallb_app, Hlit. }
  apply pattern_body_none. intros b Hm.
  inversion Hm as [p Hn _ | p var _ Hin Hf]; subst.
  - rewrite (startswith_slash foo Hbang) in Hn. discriminate.
  - rewrite endswith_slash in Hf. destruct Hin as [<- | [<- | [<- | []]]].
    + apply (fnmatch_literal_iff rp (foo ++ "/") Hp) in Hf.
      rewrite Hf, endswith_slash in Hend. discriminate.
    + apply (fnmatch_below_iff rp (foo ++ "/") Hp) in Hf.
      destruct Hf as [pre Hf].
      rewrite Hf, <- !append_assoc, endswith_slash in Hend. discriminate.
    + apply (fnmatch_inside_iff rp (foo ++ "/") Hp) in Hf.
      destruct Hf as (pre & suf & Hf).
      assert (E : rp = ((pre ++ "/" ++ foo) ++ "//" ++ suf)%string).
      { rewrite Hf. now rewrite !append_assoc. }
      rewrite E, double_slash_found in Hdouble. discriminate.
Qed.

Lemma directory_pattern_spares_plain_files_build :
  @Contextro.pattern_body posix "src/build" "src/build" "build/" = None.
Proof.
  apply (@directory_pattern_spares_plain_files "build" ["src"; "build"]);
    reflexivity.
Defined.

(** ** Instances of the properties above *)

Lemma contextignore_never_recorded_scenario :
  let self := {| Contextro.root_dir := Sample.root;
                 Contextro.ignore_file := Sample.root ++ ["my.ignore"];
                 Contextro.ignore_patterns :=
                   ["*.log"; "contextro_context_*.txt"] |} in
  ~ In (Separator ([] ++ [".contextignore"]))
       (out (fst (Contextro.build_context self Sample.timestamp
                    Sample.scenario initial))).
Proof.
  intros self.
  exact (@contextignore_never_recorded posix self Sample.timestamp
           Sample.scenario []).
Defined.
